(** * Cloud command gateway of deebot_client: a shallow embedding of
      [deebot_client/api_client.py] and the properties of its three
      operations ([get_devices], [get_product_iot_map], [send_command])
      and of the portal-URL resolver [_get_portal_url]. *)

From Stdlib Require Import String Ascii List ZArith NArith Bool DecimalString.
Import ListNotations.
Local Open Scope string_scope.
Local Open Scope Z_scope.
Set Warnings "-register-all".

(** Constants of [deebot_client.const] and the name of the log-retrieval
    command ([GetCleanLogs.name]); their values are not under src. *)
Class Constants : Type := {
  PATH_API_APPSVR_APP : string;
  PATH_API_IOT_DEVMANAGER : string;
  PATH_API_LG_LOG : string;
  PATH_API_PIM_PRODUCT_IOT_MAP : string;
  GetCleanLogs_name : string
}.

(** ** Exceptions and results *)

Inductive exn : Type :=
| ApiError (msg : string)        (* deebot_client.exceptions.ApiError *)
| KeyError (key : string)        (* a mapping has no such key *)
| TypeError                      (* not iterable, not subscriptable, unhashable *)
| AttributeError (attr : string) (* the object has no such attribute *)
| Foreign (what : string).       (* raised inside a collaborator *)

Inductive result (A : Type) : Type :=
| Ok (a : A)
| Raise (e : exn).
Arguments Ok {A} a.
Arguments Raise {A} e.

(** What a collaborator (authenticator, transport) does when awaited. *)
Inductive reply (A : Type) : Type :=
| Returns (a : A)
| Throws (what : string).
Arguments Returns {A} a.
Arguments Throws {A} what.

Definition of_reply {A : Type} (r : reply A) : result A :=
  match r with
  | Returns a => Ok a
  | Throws what => Raise (Foreign what)
  end.

Definition is_api_error {A : Type} (r : result A) : bool :=
  match r with
  | Raise (ApiError _) => true
  | _ => false
  end.

Definition is_ok {A : Type} (r : result A) : bool :=
  match r with
  | Ok _ => true
  | Raise _ => false
  end.

(** ** Primitives of the Python runtime

    The module relies on a few facilities of the language and of its
    standard library whose implementation is no part of the repository:
    floating-point numbers (the [ts] header field and any fractional JSON
    number), [repr] of strings (used by [str] of a list or dict) and the two
    checks of [urllib.parse.urlsplit] that go through [ipaddress] and
    [unicodedata].  They are kept abstract. *)
Class PyRuntime : Type := {
  pyfloat : Type;
  float_eq_int : pyfloat -> Z -> bool;      (* [f == n] for a float and an int *)
  float_eqb : pyfloat -> pyfloat -> bool;   (* [f == g] for two floats *)
  float_repr : pyfloat -> string;           (* [repr(f)] *)
  str_repr : string -> string;              (* [repr(s)] *)
  (* [_check_bracketed_netloc(netloc)] returns rather than raises *)
  bracketed_netloc_ok : string -> bool;
  (* [_checknetloc(netloc)] returns rather than raises, [netloc] not ASCII *)
  nfkc_netloc_ok : string -> bool
}.

(** [needle] occurs somewhere inside [s]. *)
Definition contains (needle s : string) : Prop :=
  exists before after, s = before ++ needle ++ after.

(** [l1] is an initial segment of [l2]. *)
Definition prefix_of {A : Type} (l1 l2 : list A) : Prop :=
  exists rest, l2 = (l1 ++ rest)%list.

Section Gateway.

Context {RT : PyRuntime} {K : Constants}.

(** ** Values: what the JSON decoder produces and what the module builds *)

Inductive pyval : Type :=
| PNone
| PBool (b : bool)
| PInt (z : Z)
| PFloat (f : pyfloat)
| PStr (s : string)
| PList (l : list pyval)
| PDict (d : list (string * pyval)).

(** A dict with string keys, in insertion order.  Lookup takes the first
    binding of a key; [dict_set] keeps keys unique. *)
Definition pydict : Type := list (string * pyval).

Fixpoint dict_get (d : pydict) (k : string) : option pyval :=
  match d with
  | [] => None
  | (k', v) :: rest => if String.eqb k' k then Some v else dict_get rest k
  end.

(** [d.get(k, default)] *)
Definition dict_get_or (d : pydict) (k : string) (default : pyval) : pyval :=
  match dict_get d k with
  | Some v => v
  | None => default
  end.

(** [d[k]] *)
Definition dict_item (d : pydict) (k : string) : result pyval :=
  match dict_get d k with
  | Some v => Ok v
  | None => Raise (KeyError k)
  end.

(** [d[k] = v]: an existing key keeps its position. *)
Fixpoint dict_set (d : pydict) (k : string) (v : pyval) : pydict :=
  match d with
  | [] => [(k, v)]
  | (k', v') :: rest =>
      if String.eqb k' k then (k', v) :: rest else (k', v') :: dict_set rest k v
  end.

(** [d.update(other)] *)
Definition dict_update (d other : pydict) : pydict :=
  fold_left (fun acc kv => dict_set acc (fst kv) (snd kv)) other d.

Fixpoint dict_keys (d : pydict) : list string :=
  match d with
  | [] => []
  | (k, _) :: rest =>
      k :: filter (fun k' => negb (String.eqb k k')) (dict_keys rest)
  end.

(** [v == n] where [n] is an int: True == 1, False == 0, and a float equals
    an int of the same value. *)
Definition eq_int (v : pyval) (n : Z) : bool :=
  match v with
  | PInt z => Z.eqb z n
  | PBool b => Z.eqb (if b then 1 else 0) n
  | PFloat f => float_eq_int f n
  | _ => false
  end.

(** [v == s] where [s] is a str. *)
Definition eq_str (v : pyval) (s : string) : bool :=
  match v with
  | PStr t => String.eqb t s
  | _ => false
  end.

(** [a == b] for two hashable values (the keys of a dict). *)
Definition key_eq (a b : pyval) : bool :=
  match a, b with
  | PNone, PNone => true
  | PStr s, PStr t => String.eqb s t
  | PFloat f, PFloat g => float_eqb f g
  | PFloat f, PInt z | PInt z, PFloat f => float_eq_int f z
  | PFloat f, PBool c | PBool c, PFloat f => float_eq_int f (if c then 1 else 0)
  | PInt z, _ => eq_int b z
  | PBool c, _ => eq_int b (if c then 1 else 0)
  | _, _ => false
  end.

Definition hashable (v : pyval) : bool :=
  match v with
  | PList _ | PDict _ => false
  | _ => true
  end.

(** ** [str] and [repr] *)

Definition int_str (z : Z) : string := NilZero.string_of_int (Z.to_int z).

Fixpoint join (sep : string) (parts : list string) : string :=
  match parts with
  | [] => ""
  | [p] => p
  | p :: rest => p ++ sep ++ join sep rest
  end.

Fixpoint py_repr (v : pyval) : string :=
  match v with
  | PNone => "None"
  | PBool true => "True"
  | PBool false => "False"
  | PInt z => int_str z
  | PFloat f => float_repr f
  | PStr s => str_repr s
  | PList l => "[" ++ join ", " (map py_repr l) ++ "]"
  | PDict d =>
      "{" ++ join ", "
               (map (fun kv => match kv with
                               | (k, x) => str_repr k ++ ": " ++ py_repr x
                               end) d) ++ "}"
  end.

(** [str(v)], which is what an f-string field [{v}] inserts. *)
Definition py_str (v : pyval) : string :=
  match v with
  | PStr s => s
  | _ => py_repr v
  end.

(** The items a [for] loop over [v] visits: the elements of a list, the
    keys of a dict, the characters of a str; anything else is not
    iterable. *)
Fixpoint chars (s : string) : list pyval :=
  match s with
  | EmptyString => []
  | String c rest => PStr (String c EmptyString) :: chars rest
  end.

Definition py_iter (v : pyval) : result (list pyval) :=
  match v with
  | PList l => Ok l
  | PDict d => Ok (map PStr (dict_keys d))
  | PStr s => Ok (chars s)
  | _ => Raise TypeError
  end.

(** [v[k]] for a str key [k]: only a dict can be subscripted by a str. *)
Definition py_item (v : pyval) (k : string) : result pyval :=
  match v with
  | PDict d => dict_item d k
  | _ => Raise TypeError
  end.

(** A dict with arbitrary hashable keys (the product map). *)
Definition pymap : Type := list (pyval * pyval).

Fixpoint map_set (m : pymap) (k v : pyval) : pymap :=
  match m with
  | [] => [(k, v)]
  | (k', v') :: rest =>
      if key_eq k' k then (k', v) :: rest else (k', v') :: map_set rest k v
  end.

(** [m[k] = v] *)
Definition map_store (m : pymap) (k v : pyval) : result pymap :=
  if hashable k then Ok (map_set m k v) else Raise TypeError.

(** ** Data model *)

(** Modelled from the spec: the authentication module is not under src.
    Credentials are an opaque session snapshot that exposes a user
    identifier. *)
Record Credentials : Type := mkCredentials { user_id : pyval }.

(** Modelled from the spec: the models module is not under src.  A
    Configuration holds a continent code and a country code. *)
Record Configuration : Type := mkConfiguration {
  continent : string;
  country : string
}.

(** Modelled from the spec: the models module is not under src.  A
    DeviceInfo is constructed from the raw mapping of the device-list reply
    ([DeviceInfo(device)]) and is read-only afterwards; its fields [did],
    [resource] and [get_class] are the mapping's entries "did", "resource"
    and "class".  Reading a field the mapping lacks raises the mapping's
    KeyError. *)
Record DeviceInfo : Type := mkDeviceInfo { raw : pydict }.

Definition did (d : DeviceInfo) : result pyval := dict_item (raw d) "did".
Definition resource (d : DeviceInfo) : result pyval := dict_item (raw d) "resource".
Definition get_class (d : DeviceInfo) : result pyval := dict_item (raw d) "class".

(** Modelled from the spec: the command modules are not under src.  A
    command, standard or custom, is a name and an ordered sequence of
    argument values. *)
Record Command : Type := mkCommand {
  name : string;
  args : list pyval
}.

(** The keyword arguments of [_InternalApiClient.post]. *)
Record request : Type := mkRequest {
  path : string;
  json : pydict;
  query_params : option pydict;
  headers : option (list (string * string));
  credentials : Credentials
}.

Definition _REQUEST_HEADERS : list (string * string) :=
  [("User-Agent", "Dalvik/2.1.0 (Linux; U; Android 5.1.1; A5010 Build/LMY48Z)")].

(** ** Effects

    An operation awaits the authenticator and the transport, reads the
    clock and logs.  A run is recorded as the sequence of these events,
    together with two program points: the request body has been built, and
    the reply's success marker is inspected. *)

Inductive loglevel : Type := DEBUG | ERROR.

Inductive event : Type :=
| EvAuthenticate                 (* await self._authenticator.authenticate() *)
| EvNow                          (* datetime.now() *)
| EvBuilt (body : pydict)        (* the [json] body is complete *)
| EvPost (req : request)         (* await self._api_client.post(...) *)
| EvValidate (resp : pydict)     (* the test on resp.get("code", None) *)
| EvLog (level : loglevel) (msg : string) (items : list pyval).

(** The collaborators, as one invocation of an operation meets them. *)
Record World : Type := mkWorld {
  authenticate : reply Credentials;
  post : request -> reply pydict;
  now : pyfloat
}.

Definition M (A : Type) : Type := World -> list event * result A.

Definition ret {A : Type} (a : A) : M A := fun _ => ([], Ok a).

Definition bind {A B : Type} (m : M A) (k : A -> M B) : M B :=
  fun w =>
    match m w with
    | (t1, Ok a) => let (t2, r) := k a w in ((t1 ++ t2)%list, r)
    | (t1, Raise e) => (t1, Raise e)
    end.

Definition raise {A : Type} (e : exn) : M A := fun _ => ([], Raise e).

Definition lift {A : Type} (r : result A) : M A := fun _ => ([], r).

Definition emit (ev : event) : M unit := fun _ => ([ev], Ok tt).

Definition await_authenticate : M Credentials :=
  fun w => ([EvAuthenticate], of_reply (authenticate w)).

Definition await_post (req : request) : M pydict :=
  fun w => ([EvPost req], of_reply (post w req)).

Definition datetime_now : M pyfloat := fun w => ([EvNow], Ok (now w)).

Notation "x <- m ;; k" := (bind m (fun x => k))
  (at level 61, m at next level, right associativity).
Notation "m ;; k" := (bind m (fun _ => k))
  (at level 61, right associativity).

Definition trace {A : Type} (m : M A) (w : World) : list event := fst (m w).
Definition outcome {A : Type} (m : M A) (w : World) : result A := snd (m w).

(** The requests a run handed to the transport. *)
Fixpoint posted (t : list event) : list request :=
  match t with
  | [] => []
  | EvPost req :: rest => req :: posted rest
  | _ :: rest => posted rest
  end.

(** The four stages of the skeleton an operation is said to follow. *)
Inductive stage : Type := Acquire | Build | Transport | Validate.

Fixpoint stages (t : list event) : list stage :=
  match t with
  | [] => []
  | EvAuthenticate :: rest => Acquire :: stages rest
  | EvBuilt _ :: rest => Build :: stages rest
  | EvPost _ :: rest => Transport :: stages rest
  | EvValidate _ :: rest => Validate :: stages rest
  | _ :: rest => stages rest
  end.

(** ** The module *)

(** ** [urllib.parse]

    Modelled from the Python library: [urllib.parse] is no part of the
    repository.  The functions follow CPython 3.11 for [str] arguments,
    statement by statement; a string is its sequence of (UTF-8) bytes, which
    the ASCII delimiters split at the same places as code points.  A
    ValueError raised inside the library is [Foreign "ValueError"].  Two
    checks of [urlsplit] on a network location are left to the runtime. *)

Definition code (c : ascii) : N := N_of_ascii c.

(** A character of [_WHATWG_C0_CONTROL_OR_SPACE]. *)
Definition is_c0_or_space (c : ascii) : bool := N.leb (code c) 32.

(** A character of [_UNSAFE_URL_BYTES_TO_REMOVE]: tab, CR, LF. *)
Definition is_unsafe (c : ascii) : bool :=
  N.eqb (code c) 9 || N.eqb (code c) 13 || N.eqb (code c) 10.

Definition is_upper (c : ascii) : bool :=
  N.leb 65 (code c) && N.leb (code c) 90.

Definition is_lower (c : ascii) : bool :=
  N.leb 97 (code c) && N.leb (code c) 122.

Definition is_digit (c : ascii) : bool :=
  N.leb 48 (code c) && N.leb (code c) 57.

(** [c.isascii() and c.isalpha()] *)
Definition is_alpha (c : ascii) : bool := is_upper c || is_lower c.

(** [c in scheme_chars] *)
Definition is_scheme_char (c : ascii) : bool :=
  is_alpha c || is_digit c || Ascii.eqb c "+" || Ascii.eqb c "-"
  || Ascii.eqb c ".".

Definition is_non_ascii (c : ascii) : bool := N.leb 128 (code c).

Definition lower_char (c : ascii) : ascii :=
  if is_upper c then ascii_of_N (code c + 32) else c.

Fixpoint all_chars (p : ascii -> bool) (s : string) : bool :=
  match s with
  | EmptyString => true
  | String c rest => p c && all_chars p rest
  end.

(** [d in s] *)
Fixpoint has_char (d : ascii) (s : string) : bool :=
  match s with
  | EmptyString => false
  | String c rest => Ascii.eqb c d || has_char d rest
  end.

Fixpoint map_chars (f : ascii -> ascii) (s : string) : string :=
  match s with
  | EmptyString => EmptyString
  | String c rest => String (f c) (map_chars f rest)
  end.

Definition is_empty (s : string) : bool :=
  match s with
  | EmptyString => true
  | String _ _ => false
  end.

(** [s.lstrip(_WHATWG_C0_CONTROL_OR_SPACE)] *)
Fixpoint lstrip (s : string) : string :=
  match s with
  | EmptyString => EmptyString
  | String c rest => if is_c0_or_space c then lstrip rest else s
  end.

Fixpoint rstrip (s : string) : string :=
  match s with
  | EmptyString => EmptyString
  | String c rest =>
      let rest' := rstrip rest in
      if is_empty rest' && is_c0_or_space c then EmptyString
      else String c rest'
  end.

(** [s.strip(_WHATWG_C0_CONTROL_OR_SPACE)] *)
Definition strip (s : string) : string := rstrip (lstrip s).

(** The three [replace(b, "")] of the unsafe characters. *)
Fixpoint remove_unsafe (s : string) : string :=
  match s with
  | EmptyString => EmptyString
  | String c rest =>
      if is_unsafe c then remove_unsafe rest else String c (remove_unsafe rest)
  end.

(** [s.split(d, 1)] when [d in s]: what is before the first [d], and what
    is after it. *)
Fixpoint split_first (d : ascii) (s : string) : option (string * string) :=
  match s with
  | EmptyString => None
  | String c rest =>
      if Ascii.eqb c d then Some (EmptyString, rest)
      else match split_first d rest with
           | Some (before, after) => Some (String c before, after)
           | None => None
           end
  end.

(** [s.split(d)]: at least one part. *)
Fixpoint split_all (d : ascii) (s : string) : list string :=
  match s with
  | EmptyString => [EmptyString]
  | String c rest =>
      if Ascii.eqb c d then EmptyString :: split_all d rest
      else match split_all d rest with
           | part :: parts => String c part :: parts
           | [] => [String c EmptyString]
           end
  end.

(** [url[:2] == '//'] *)
Definition starts_with_slashes (s : string) : bool :=
  match s with
  | String "/" (String "/" _) => true
  | _ => false
  end.

(** [url[:1] == '/'] *)
Definition starts_with_slash (s : string) : bool :=
  match s with
  | String "/" _ => true
  | _ => false
  end.

Definition drop2 (s : string) : string :=
  match s with
  | String _ (String _ rest) => rest
  | _ => EmptyString
  end.

Definition is_delimiter (c : ascii) : bool :=
  Ascii.eqb c "/" || Ascii.eqb c "?" || Ascii.eqb c "#".

(** [_splitnetloc(url, 2)], given [url[2:]]: the part before the earliest
    of '/', '?' and '#', and the rest from that delimiter on. *)
Fixpoint _splitnetloc (s : string) : string * string :=
  match s with
  | EmptyString => (EmptyString, EmptyString)
  | String c rest =>
      if is_delimiter c then (EmptyString, s)
      else let (domain, tail) := _splitnetloc rest in (String c domain, tail)
  end.

Definition elem (s : string) (l : list string) : bool :=
  existsb (String.eqb s) l.

Definition uses_relative : list string :=
  [""; "ftp"; "http"; "gopher"; "nntp"; "imap"; "wais"; "file"; "https";
   "shttp"; "mms"; "prospero"; "rtsp"; "rtspu"; "sftp"; "svn"; "svn+ssh";
   "ws"; "wss"].

Definition uses_netloc : list string :=
  [""; "ftp"; "http"; "gopher"; "nntp"; "telnet"; "imap"; "wais"; "file";
   "mms"; "https"; "shttp"; "snews"; "prospero"; "rtsp"; "rtspu"; "rsync";
   "svn"; "svn+ssh"; "sftp"; "nfs"; "git"; "git+ssh"; "ws"; "wss"].

Definition uses_params : list string :=
  [""; "ftp"; "hdl"; "prospero"; "http"; "imap"; "https"; "shttp"; "rtsp";
   "rtspu"; "sip"; "sips"; "mms"; "sftp"; "tel"].

Record SplitResult : Type := mkSplitResult {
  s_scheme : string;
  s_netloc : string;
  s_path : string;
  s_query : string;
  s_fragment : string
}.

Record ParseResult : Type := mkParseResult {
  p_scheme : string;
  p_netloc : string;
  p_path : string;
  p_params : string;
  p_query : string;
  p_fragment : string
}.

(** The scheme of [url] and what follows its colon, when there is one:
    [i = url.find(':')], [i > 0], a first character that is an ASCII letter,
    and scheme characters up to the colon. *)
Definition split_scheme (scheme url : string) : string * string :=
  match split_first ":" url with
  | Some (String c before, after) =>
      if is_alpha c && all_chars is_scheme_char (String c before)
      then (map_chars lower_char (String c before), after)
      else (scheme, url)
  | _ => (scheme, url)
  end.

(** The fragment, then the query, are cut off the url. *)
Definition split_fragment_query (url : string) : string * string * string :=
  let (url, fragment) :=
    match split_first "#" url with
    | Some (before, after) => (before, after)
    | None => (url, EmptyString)
    end in
  let (url, query) :=
    match split_first "?" url with
    | Some (before, after) => (before, after)
    | None => (url, EmptyString)
    end in
  (url, query, fragment).

Definition urlsplit (url scheme : string) : result SplitResult :=
  let url := lstrip url in
  let scheme := strip scheme in
  let url := remove_unsafe url in
  let scheme := remove_unsafe scheme in
  let (scheme, url) := split_scheme scheme url in
  let (netloc, url) :=
    if starts_with_slashes url then _splitnetloc (drop2 url)
    else (EmptyString, url) in
  if (has_char "[" netloc && negb (has_char "]" netloc))
     || (has_char "]" netloc && negb (has_char "[" netloc))
  then Raise (Foreign "ValueError")
  else if has_char "[" netloc && has_char "]" netloc
          && negb (bracketed_netloc_ok netloc)
  then Raise (Foreign "ValueError")
  else
    let '(url, query, fragment) := split_fragment_query url in
    if negb (all_chars (fun c => negb (is_non_ascii c)) netloc)
       && negb (nfkc_netloc_ok netloc)
    then Raise (Foreign "ValueError")
    else Ok (mkSplitResult scheme netloc url query fragment).

(** [_splitparams(url)], called when ';' is in [url]: the parameters follow
    the first ';' of the last path segment. *)
Fixpoint _splitparams (url : string) : string * string :=
  match url with
  | EmptyString => (EmptyString, EmptyString)
  | String c rest =>
      if has_char "/" rest
      then let (head, params) := _splitparams rest in (String c head, params)
      else if Ascii.eqb c "/"
      then match split_first ";" rest with
           | Some (before, after) => (String c before, after)
           | None => (url, EmptyString)
           end
      else match split_first ";" url with
           | Some (before, after) => (before, after)
           | None => (url, EmptyString)
           end
  end.

Definition urlparse (url scheme : string) : result ParseResult :=
  match urlsplit url scheme with
  | Raise e => Raise e
  | Ok (mkSplitResult scheme netloc url query fragment) =>
      let (url, params) :=
        if elem scheme uses_params && has_char ";" url
        then _splitparams url
        else (url, EmptyString) in
      Ok (mkParseResult scheme netloc url params query fragment)
  end.

Definition urlunsplit (scheme netloc url query fragment : string) : string :=
  let url :=
    if negb (is_empty netloc)
       || (negb (is_empty scheme) && elem scheme uses_netloc
           && negb (starts_with_slashes url))
    then
      let url :=
        if negb (is_empty url) && negb (starts_with_slash url)
        then "/" ++ url else url in
      "//" ++ netloc ++ url
    else url in
  let url := if negb (is_empty scheme) then scheme ++ ":" ++ url else url in
  let url := if negb (is_empty query) then url ++ "?" ++ query else url in
  let url := if negb (is_empty fragment) then url ++ "#" ++ fragment else url in
  url.

Definition urlunparse (parts : ParseResult) : string :=
  let url :=
    if negb (is_empty (p_params parts))
    then p_path parts ++ ";" ++ p_params parts
    else p_path parts in
  urlunsplit (p_scheme parts) (p_netloc parts) url (p_query parts)
             (p_fragment parts).

(** [segments[1:-1] = filter(None, segments[1:-1])] *)
Definition drop_empty_inner (segments : list string) : list string :=
  match segments with
  | first :: (_ :: _) as rest =>
      first :: (filter (fun seg => negb (is_empty seg)) (removelast rest)
                ++ [last rest EmptyString])%list
  | _ => segments
  end.

(** The loop of [urljoin] over the segments. *)
Definition resolve (segments : list string) : list string :=
  fold_left
    (fun resolved_path seg =>
       if String.eqb seg ".." then removelast resolved_path
       else if String.eqb seg "." then resolved_path
       else (resolved_path ++ [seg])%list)
    segments [].

Definition urljoin (base url : string) : result string :=
  if is_empty base then Ok url
  else if is_empty url then Ok base
  else
    match urlparse base "" with
    | Raise e => Raise e
    | Ok (mkParseResult bscheme bnetloc bpath bparams bquery bfragment) =>
        match urlparse url bscheme with
        | Raise e => Raise e
        | Ok (mkParseResult scheme netloc path params query fragment) =>
            if negb (String.eqb scheme bscheme)
               || negb (elem scheme uses_relative)
            then Ok url
            else if elem scheme uses_netloc && negb (is_empty netloc)
            then Ok (urlunparse (mkParseResult scheme netloc path params
                                               query fragment))
            else
              let netloc :=
                if elem scheme uses_netloc then bnetloc else netloc in
              if is_empty path && is_empty params
              then
                let query := if is_empty query then bquery else query in
                Ok (urlunparse (mkParseResult scheme netloc bpath bparams
                                              query fragment))
              else
                let base_parts := split_all "/" bpath in
                let base_parts :=
                  if negb (is_empty (last base_parts EmptyString))
                  then removelast base_parts else base_parts in
                let segments :=
                  if starts_with_slash path then split_all "/" path
                  else drop_empty_inner (base_parts ++ split_all "/" path) in
                let resolved_path := resolve segments in
                let resolved_path :=
                  if elem (last segments EmptyString) ["."; ".."]
                  then (resolved_path ++ [EmptyString])%list
                  else resolved_path in
                let joined := join "/" resolved_path in
                Ok (urlunparse
                      (mkParseResult scheme netloc
                         (if is_empty joined then "/" else joined)
                         params query fragment))
        end
    end.

(** The network location of a URL: [urlsplit(url).netloc]. *)
Definition url_netloc (url : string) : result string :=
  match urlsplit url "" with
  | Ok parts => Ok (s_netloc parts)
  | Raise e => Raise e
  end.

Definition _get_portal_url (config : Configuration) (path : string)
  : result string :=
  let subdomain :=
    if negb (String.eqb (country config) "cn")
    then "portal-" ++ continent config
    else "portal" in
  urljoin ("https://" ++ subdomain ++ ".ecouser.net/api/") path.

(** [raise ApiError(f"failure {resp['error']} ({resp['errno']}) on <what>")] *)
Definition raise_failure {A : Type} (resp : pydict) (what : string) : M A :=
  error <- lift (dict_item resp "error") ;;
  errno <- lift (dict_item resp "errno") ;;
  raise (ApiError ("failure " ++ py_str error ++ " (" ++ py_str errno
                   ++ ") on " ++ what)).

(** The loop of [get_devices] over the items of [resp["devices"]]. *)
Fixpoint collect_devices (items : list pyval) (devices : list DeviceInfo)
  : M (list DeviceInfo) :=
  match items with
  | [] => ret devices
  | device :: rest =>
      match device with
      | PDict d =>
          if eq_str (dict_get_or d "company" PNone) "eco-ng"
          then collect_devices rest (devices ++ [mkDeviceInfo d])
          else emit (EvLog DEBUG "Skipping device as it is not supported: %s"
                           [device]) ;;
               collect_devices rest devices
      | _ => raise (AttributeError "get")
      end
  end.

(** Lines 52 to 61 of [get_devices]: what is done with the reply. *)
Definition devices_of_reply (resp : pydict) : M (list DeviceInfo) :=
  emit (EvValidate resp) ;;
  if eq_int (dict_get_or resp "code" PNone) 0 then
    seq <- lift (dict_item resp "devices") ;;
    items <- lift (py_iter seq) ;;
    collect_devices items []
  else
    emit (EvLog ERROR "Failed to get devices" []) ;;
    raise_failure resp "getting devices".

Definition get_devices : M (list DeviceInfo) :=
  credentials <- await_authenticate ;;
  let json := [("userid", user_id credentials);
               ("todo", PStr "GetGlobalDeviceList")] in
  emit (EvBuilt json) ;;
  resp <- await_post (mkRequest PATH_API_APPSVR_APP json None None credentials) ;;
  devices_of_reply resp.

(** The loop of [get_product_iot_map] over the items of [resp["data"]]; the
    right-hand side of the assignment is evaluated before the subscript. *)
Fixpoint collect_products (items : list pyval) (result : pymap) : M pymap :=
  match items with
  | [] => ret result
  | entry :: rest =>
      product <- lift (py_item entry "product") ;;
      classid <- lift (py_item entry "classid") ;;
      result' <- lift (map_store result classid product) ;;
      collect_products rest result'
  end.

(** Lines 71 to 79 of [get_product_iot_map]: what is done with the reply.
    [code in [0, "0000"]] compares with each element in turn. *)
Definition products_of_reply (resp : pydict) : M pymap :=
  emit (EvValidate resp) ;;
  let code := dict_get_or resp "code" PNone in
  if eq_int code 0 || eq_str code "0000" then
    seq <- lift (dict_item resp "data") ;;
    items <- lift (py_iter seq) ;;
    collect_products items []
  else
    emit (EvLog ERROR "Failed to get product iot map" []) ;;
    raise_failure resp "getting product iot map".

(** The arguments of the call are evaluated from left to right: the empty
    body first, the credentials next. *)
Definition get_product_iot_map : M pymap :=
  let json : pydict := [] in
  emit (EvBuilt json) ;;
  credentials <- await_authenticate ;;
  resp <- await_post (mkRequest PATH_API_PIM_PRODUCT_IOT_MAP json None None
                                credentials) ;;
  products_of_reply resp.

Definition send_command (command : Command) (device_info : DeviceInfo)
  : M pydict :=
  let query_params : pydict := [] in
  built <-
    (if String.eqb (name command) GetCleanLogs_name then
       d <- lift (did device_info) ;;
       r <- lift (resource device_info) ;;
       let json := [("td", PStr (name command)); ("did", d); ("resource", r)] in
       emit (EvBuilt json) ;;
       ret (json, PATH_API_LG_LOG, query_params)
     else
       ts <- datetime_now ;;
       let payload : pydict :=
         [("header", PDict [("pri", PStr "1"); ("ts", PFloat ts);
                            ("tzm", PInt 480); ("ver", PStr "0.0.50")])] in
       let payload :=
         if Nat.ltb 0 (length (args command))
         then dict_set payload "body" (PDict [("data", PList (args command))])
         else payload in
       d <- lift (did device_info) ;;
       r <- lift (resource device_info) ;;
       c <- lift (get_class device_info) ;;
       let json := [("cmdName", PStr (name command));
                    ("payload", PDict payload);
                    ("payloadType", PStr "j");
                    ("td", PStr "q");
                    ("toId", d);
                    ("toRes", r);
                    ("toType", c)] in
       emit (EvBuilt json) ;;
       mid <- lift (dict_item json "toType") ;;
       to_id <- lift (dict_item json "toId") ;;
       ret (json, PATH_API_IOT_DEVMANAGER,
            dict_update query_params [("mid", mid); ("did", to_id)])) ;;
  let '(json, path, query_params) := built in
  credentials <- await_authenticate ;;
  td <- lift (dict_item json "td") ;;
  let query_params :=
    dict_update query_params
      [("td", td); ("u", user_id credentials); ("cv", PStr "1.67.3");
       ("t", PStr "a"); ("av", PStr "1.3.1")] in
  await_post (mkRequest path json (Some query_params) (Some _REQUEST_HEADERS)
                        credentials).

(** ** Notions the properties are stated with *)

(** The device entry's company field equals the vendor tag "eco-ng". *)
Definition spec_is_eco_ng (device : pydict) : bool :=
  match dict_get device "company" with
  | Some (PStr tag) => String.eqb tag "eco-ng"
  | _ => false
  end.

(** The response's code field equals the integer 0, resp. the string
    "0000", under the equality of the language. *)
Definition code_is_zero (resp : pydict) : Prop :=
  exists code, dict_get resp "code" = Some code /\ eq_int code 0 = true.

Definition code_is_0000 (resp : pydict) : Prop :=
  dict_get resp "code" = Some (PStr "0000").

(** An entry of the product map's [data] sequence: a mapping with a
    hashable [classid] and a [product]. *)
Definition entry_ok (entry : pyval) : bool :=
  match entry with
  | PDict d =>
      match dict_get d "classid", dict_get d "product" with
      | Some classid, Some _ => hashable classid
      | _, _ => false
      end
  | _ => false
  end.

(** The host the resolver is said to select. *)
Definition spec_portal_host (config : Configuration) : string :=
  if String.eqb (country config) "cn"
  then "portal.ecouser.net"
  else "portal-" ++ continent config ++ ".ecouser.net".

(** A trace that only logs. *)
Definition only_logs (t : list event) : Prop :=
  Forall (fun ev => match ev with EvLog _ _ _ => True | _ => False end) t.

(** The order of stages every operation is said to follow. *)
Definition skeleton : list stage := [Acquire; Build; Transport; Validate].

(** A run went down the failure path of a validated operation: it logged
    the failure (the statement before the [raise]). *)
Definition took_failure_path (logged : string) (t : list event) : Prop :=
  In (EvLog ERROR logged []) t.

Definition follows_skeleton {A : Type} (op : M A) (w : World) : Prop :=
  prefix_of (stages (trace op w)) skeleton.

(** ** Further notions *)

(** [m.get(k)] on a dict with arbitrary hashable keys. *)
Fixpoint map_get (m : pymap) (k : pyval) : option pyval :=
  match m with
  | [] => None
  | (k', v) :: rest => if key_eq k' k then Some v else map_get rest k
  end.

Definition is_mapping (v : pyval) : bool :=
  match v with
  | PDict _ => true
  | _ => false
  end.

(** What a [for] loop accepts: a list, a dict or a str. *)
Definition iterable (v : pyval) : bool :=
  match v with
  | PList _ | PDict _ | PStr _ => true
  | _ => false
  end.

(** How often a run awaited the authenticator. *)
Fixpoint acquisitions (t : list event) : nat :=
  match t with
  | [] => 0%nat
  | EvAuthenticate :: rest => S (acquisitions rest)
  | _ :: rest => acquisitions rest
  end.

(** The log records of a run. *)
Fixpoint logged (t : list event) : list event :=
  match t with
  | [] => []
  | EvLog level msg items :: rest => EvLog level msg items :: logged rest
  | _ :: rest => logged rest
  end.

(** The DEBUG record [get_devices] writes for a device it skips. *)
Definition skip_record (device : pydict) : event :=
  EvLog DEBUG "Skipping device as it is not supported: %s" [PDict device].

(** The entry is a mapping whose classid is the str [c] and whose product
    is [p]. *)
Definition entry_binds (entry : pyval) (c : string) (p : pyval) : Prop :=
  exists d, entry = PDict d /\
            dict_get d "classid" = Some (PStr c) /\
            dict_get d "product" = Some p.

(** [m[c] = p] for a str [c]. *)
Definition assign (m : pymap) (cp : string * pyval) : pymap :=
  map_set m (PStr (fst cp)) (snd cp).

(** All keys of the map are strs. *)
Definition str_keys (m : pymap) : Prop :=
  Forall (fun kv => exists s, fst kv = PStr s) m.

(** ** The portal URL: notions *)







(** The resolver yields a URL whose host is the one it is said to select. *)
Definition resolves_to_portal_host (config : Configuration) (p : string)
  : Prop :=
  exists url, _get_portal_url config p = Ok url /\
              url_netloc url = Ok (spec_portal_host config).

End Gateway.

(** ** Concrete inputs *)

Module Sample.

(** A runtime to evaluate the module on concrete inputs: floats that hold an
    integral value below 10^16, strings of printable characters without
    quotes or backslashes, and URLs whose network location is ASCII without
    brackets. *)
#[local] Instance runtime : PyRuntime := {|
  pyfloat := Z;
  float_eq_int := Z.eqb;
  float_eqb := Z.eqb;
  float_repr := fun z => int_str z ++ ".0";
  str_repr := fun s => "'" ++ s ++ "'";
  bracketed_netloc_ok := fun _ => false;
  nfkc_netloc_ok := fun _ => false
|}.

(** Sample values for the constants. *)
#[local] Instance constants : Constants := {|
  PATH_API_APPSVR_APP := "appsvr/app.do";
  PATH_API_IOT_DEVMANAGER := "iot/devmanager.do";
  PATH_API_LG_LOG := "lg/log.do";
  PATH_API_PIM_PRODUCT_IOT_MAP := "pim/product/getProductIotMap";
  GetCleanLogs_name := "GetCleanLogs"
|}.

Definition creds : Credentials := mkCredentials (PStr "user-1").

(** A world whose authenticator returns [creds] and whose transport answers
    every request with [r]. *)
Definition world (r : reply pydict) : World :=
  mkWorld (Returns creds) (fun _ => r) 1700000000.

Definition device1 : pydict :=
  [("did", PStr "d1"); ("resource", PStr "r1"); ("company", PStr "eco-ng");
   ("class", PStr "c1")].

Definition device2 : pydict :=
  [("did", PStr "d2"); ("resource", PStr "r2"); ("company", PStr "other")].

(** {"code":0,"devices":[{...d1...},{...d2...}]} *)
Definition reply_devices : pydict :=
  [("code", PInt 0); ("devices", PList [PDict device1; PDict device2])].

(** {"code":1,"error":"bad","errno":500} *)
Definition reply_failure : pydict :=
  [("code", PInt 1); ("error", PStr "bad"); ("errno", PInt 500)].

(** {"error":"bad","errno":500} *)
Definition reply_no_code : pydict :=
  [("error", PStr "bad"); ("errno", PInt 500)].

(** {"code":"0000","data":[{"classid":"c1","product":{"name":"N8"}}]} *)
Definition reply_products : pydict :=
  [("code", PStr "0000");
   ("data", PList [PDict [("classid", PStr "c1");
                          ("product", PDict [("name", PStr "N8")])]])].

Definition info1 : DeviceInfo := mkDeviceInfo device1.

Definition clean : Command :=
  mkCommand "clean" [PDict [("act", PStr "start")]].

Definition get_battery : Command := mkCommand "getBattery" [].

Definition get_clean_logs : Command := mkCommand "GetCleanLogs" [].

Definition devices_request : request :=
  mkRequest "appsvr/app.do"
    [("userid", PStr "user-1"); ("todo", PStr "GetGlobalDeviceList")]
    None None creds.

Definition products_request : request :=
  mkRequest "pim/product/getProductIotMap" [] None None creds.

(** A world whose authenticator fails. *)
Definition world_without_login : World :=
  mkWorld (Throws "login failed") (fun _ => Returns reply_devices) 1700000000.

(** {"code":0} *)
Definition reply_code_only : pydict := [("code", PInt 0)].

(** {"code":1} *)
Definition reply_bare_failure : pydict := [("code", PInt 1)].

(** {"code":1,"error":"bad"} *)
Definition reply_no_errno : pydict := [("code", PInt 1); ("error", PStr "bad")].

(** {"code":0,"devices":[{...d1...},"oops"]} *)
Definition reply_odd_devices : pydict :=
  [("code", PInt 0); ("devices", PList [PDict device1; PStr "oops"])].

Definition entry (classid : string) (product : string) : pyval :=
  PDict [("classid", PStr classid); ("product", PStr product)].

(** {"code":0,"data":[c1 -> p1, c2 -> p2, c1 -> p3]} *)
Definition reply_repeated_classid : pydict :=
  [("code", PInt 0);
   ("data", PList [entry "c1" "p1"; entry "c2" "p2"; entry "c1" "p3"])].

(** {"code":0,"data":[c1 -> p1, {"classid":"c9"}, c2 -> p2]} *)
Definition reply_entry_without_product : pydict :=
  [("code", PInt 0);
   ("data", PList [entry "c1" "p1"; PDict [("classid", PStr "c9")];
                   entry "c2" "p2"])].

Definition log_request : request :=
  mkRequest "lg/log.do"
    [("td", PStr "GetCleanLogs"); ("did", PStr "d1"); ("resource", PStr "r1")]
    (Some [("td", PStr "GetCleanLogs"); ("u", PStr "user-1");
           ("cv", PStr "1.67.3"); ("t", PStr "a"); ("av", PStr "1.3.1")])
    (Some _REQUEST_HEADERS) creds.

Definition us : Configuration := mkConfiguration "na" "us".

End Sample.

(** * Properties *)

Section Properties.

Context {RT : PyRuntime} {K : Constants}.

Notation "x <- m ;; k" := (bind m (fun x => k))
  (at level 61, m at next level, right associativity).
Notation "m ;; k" := (bind m (fun _ => k))
  (at level 61, right associativity).

(** ** Runs of the monad *)

Lemma run_bind_ok {A B : Type} (m : M A) (k : A -> M B) w t1 a :
  m w = (t1, Ok a) ->
  bind m k w = ((t1 ++ trace (k a) w)%list, outcome (k a) w).
Proof.
  intros Hm. unfold bind, trace, outcome. rewrite Hm.
  destruct (k a w); reflexivity.
Qed.

Lemma only_logs_posted t : only_logs t -> posted t = [].
Proof.
  induction 1 as [|ev t Hev _ IH]; [reflexivity|].
  destruct ev; simpl; solve [contradiction | exact IH].
Qed.

Lemma only_logs_stages t : only_logs t -> stages t = [].
Proof.
  induction 1 as [|ev t Hev _ IH]; [reflexivity|].
  destruct ev; simpl; solve [contradiction | exact IH].
Qed.

Lemma posted_In t req : In (EvPost req) t <-> In req (posted t).
Proof.
  induction t as [|ev t IH]; simpl; [tauto|].
  destruct ev; simpl; rewrite <- IH;
    try (split; [intros [H|H]; [discriminate H | exact H] | auto]).
  split; intros [H|H]; auto; left; congruence.
Qed.

(** ** The failure path *)

Lemma raise_failure_run {A : Type} (resp : pydict) (what : string) w :
  @raise_failure _ A resp what w =
  ([], match dict_get resp "error", dict_get resp "errno" with
       | None, _ => Raise (KeyError "error")
       | Some _, None => Raise (KeyError "errno")
       | Some error, Some errno =>
           Raise (ApiError ("failure " ++ py_str error ++ " (" ++ py_str errno
                            ++ ") on " ++ what))
       end).
Proof.
  unfold raise_failure, bind, lift, raise, dict_item.
  destruct (dict_get resp "error"); [|reflexivity].
  destruct (dict_get resp "errno"); reflexivity.
Qed.

Lemma raise_failure_never_ok {A : Type} (resp : pydict) (what : string) w :
  is_ok (outcome (@raise_failure _ A resp what) w) = false.
Proof.
  unfold outcome. rewrite raise_failure_run. simpl.
  destruct (dict_get resp "error"); [|reflexivity].
  destruct (dict_get resp "errno"); reflexivity.
Qed.

(** ** The device list *)

Lemma company_check_is_spec (d : pydict) :
  eq_str (dict_get_or d "company" PNone) "eco-ng" = spec_is_eco_ng d.
Proof.
  unfold dict_get_or, spec_is_eco_ng.
  destruct (dict_get d "company") as [[| | | | | |]|]; reflexivity.
Qed.

Lemma collect_devices_only_logs items acc w :
  only_logs (trace (collect_devices items acc) w).
Proof.
  revert acc. induction items as [|device rest IH]; intros acc.
  - constructor.
  - destruct device; try constructor. simpl.
    destruct (eq_str (dict_get_or d "company" PNone) "eco-ng").
    + apply IH.
    + unfold trace. erewrite run_bind_ok by reflexivity.
      simpl. constructor; [exact I | apply IH].
Qed.

Lemma collect_devices_run (entries : list pydict) acc w :
  outcome (collect_devices (map PDict entries) acc) w =
  Ok (acc ++ map mkDeviceInfo (filter spec_is_eco_ng entries))%list.
Proof.
  revert acc. induction entries as [|d rest IH]; intros acc; simpl.
  - rewrite app_nil_r. reflexivity.
  - rewrite company_check_is_spec. destruct (spec_is_eco_ng d).
    + rewrite IH. simpl. rewrite <- app_assoc. reflexivity.
    + unfold outcome. erewrite run_bind_ok by reflexivity.
      simpl. apply IH.
Qed.

Lemma get_devices_run w :
  get_devices w =
  match authenticate w with
  | Throws what => ([EvAuthenticate], Raise (Foreign what))
  | Returns c =>
      let body := [("userid", user_id c); ("todo", PStr "GetGlobalDeviceList")] in
      let req := mkRequest PATH_API_APPSVR_APP body None None c in
      match post w req with
      | Throws what =>
          ([EvAuthenticate; EvBuilt body; EvPost req], Raise (Foreign what))
      | Returns resp =>
          ([EvAuthenticate; EvBuilt body; EvPost req]
             ++ trace (devices_of_reply resp) w,
           outcome (devices_of_reply resp) w)%list
      end
  end.
Proof.
  unfold get_devices, bind, await_authenticate, await_post, emit, trace, outcome.
  destruct (authenticate w); simpl; [|reflexivity].
  destruct (post w _); simpl; [|reflexivity].
  destruct (devices_of_reply _ w); reflexivity.
Qed.

Lemma devices_of_reply_run resp w :
  devices_of_reply resp w =
  if eq_int (dict_get_or resp "code" PNone) 0
  then (EvValidate resp ::
          trace (seq <- lift (dict_item resp "devices") ;;
                 items <- lift (py_iter seq) ;;
                 collect_devices items []) w,
        outcome (seq <- lift (dict_item resp "devices") ;;
                 items <- lift (py_iter seq) ;;
                 collect_devices items []) w)
  else ([EvValidate resp; EvLog ERROR "Failed to get devices" []],
        outcome (raise_failure resp "getting devices") w).
Proof.
  unfold devices_of_reply.
  erewrite run_bind_ok by reflexivity.
  destruct (eq_int (dict_get_or resp "code" PNone) 0); [reflexivity|].
  unfold trace at 1, outcome at 1.
  erewrite run_bind_ok by reflexivity.
  unfold trace, outcome. rewrite raise_failure_run. reflexivity.
Qed.

Lemma devices_of_reply_trace resp w :
  exists logs, trace (devices_of_reply resp) w = EvValidate resp :: logs
               /\ only_logs logs.
Proof.
  unfold trace at 1. rewrite devices_of_reply_run.
  destruct (eq_int (dict_get_or resp "code" PNone) 0); simpl.
  - eexists; split; [reflexivity|].
    unfold trace, bind, lift.
    destruct (dict_item resp "devices") as [seq|]; simpl; [|constructor].
    destruct (py_iter seq) as [items|]; simpl; [|constructor].
    pose proof (collect_devices_only_logs items [] w) as H.
    unfold trace in H. destruct (collect_devices items [] w); exact H.
  - eexists; split; [reflexivity|]. repeat constructor.
Qed.

(** ** The product map *)

Lemma collect_products_trace items acc w :
  trace (collect_products items acc) w = [].
Proof.
  revert acc. induction items as [|entry rest IH]; intros acc; [reflexivity|].
  unfold trace in *. simpl. unfold bind, lift.
  destruct (py_item entry "product"); [|reflexivity].
  destruct (py_item entry "classid") as [classid|]; [|reflexivity].
  destruct (map_store acc classid a) as [acc'|]; [|reflexivity].
  specialize (IH acc'). destruct (collect_products rest acc' w).
  simpl in *. exact IH.
Qed.

Lemma collect_products_ok items acc w :
  forallb entry_ok items = true ->
  is_ok (outcome (collect_products items acc) w) = true.
Proof.
  revert acc. induction items as [|entry rest IH]; intros acc Hok; [reflexivity|].
  simpl in Hok. apply andb_prop in Hok. destruct Hok as [Hentry Hrest].
  destruct entry as [| | | | | |d]; try discriminate Hentry.
  unfold entry_ok in Hentry.
  destruct (dict_get d "classid") as [classid|] eqn:Hc; [|discriminate Hentry].
  destruct (dict_get d "product") as [product|] eqn:Hp; [|discriminate Hentry].
  unfold outcome in *. simpl.
  unfold bind, lift, py_item, dict_item, map_store.
  rewrite Hp, Hc, Hentry.
  specialize (IH (map_set acc classid product) Hrest).
  destruct (collect_products rest _ w). exact IH.
Qed.

Lemma code_check_zero (resp : pydict) :
  eq_int (dict_get_or resp "code" PNone) 0 = true <-> code_is_zero resp.
Proof.
  unfold dict_get_or, code_is_zero. split.
  - destruct (dict_get resp "code") as [code|]; [|discriminate].
    intros H. exists code. auto.
  - intros [code [Hget H]]. rewrite Hget. exact H.
Qed.

Lemma code_check_0000 (resp : pydict) :
  eq_str (dict_get_or resp "code" PNone) "0000" = true <-> code_is_0000 resp.
Proof.
  unfold dict_get_or, code_is_0000. split.
  - destruct (dict_get resp "code") as [[| | | |s| |]|]; try discriminate.
    simpl. intros H. apply String.eqb_eq in H. congruence.
  - intros H. rewrite H. reflexivity.
Qed.

(** Which values equal the integer 0: the int 0, False, and a float that
    compares equal to 0. *)
Lemma eq_int_zero_cases (v : pyval) :
  eq_int v 0 = true <->
  v = PInt 0 \/ v = PBool false \/ exists f, v = PFloat f /\ float_eq_int f 0 = true.
Proof.
  split.
  - destruct v as [|[|]|z|f| | |]; simpl; try discriminate.
    + intros _. right. left. reflexivity.
    + intros H. apply Z.eqb_eq in H. left. congruence.
    + intros H. right. right. exists f. auto.
  - intros [H|[H|[f [H Hf]]]]; subst; auto.
Qed.

Lemma product_code_check (resp : pydict) :
  let code := dict_get_or resp "code" PNone in
  eq_int code 0 || eq_str code "0000" = true <->
  code_is_zero resp \/ code_is_0000 resp.
Proof.
  simpl. rewrite orb_true_iff, code_check_zero, code_check_0000. tauto.
Qed.

Lemma products_of_reply_run resp w :
  products_of_reply resp w =
  let code := dict_get_or resp "code" PNone in
  if eq_int code 0 || eq_str code "0000"
  then ([EvValidate resp],
        outcome (seq <- lift (dict_item resp "data") ;;
                 items <- lift (py_iter seq) ;;
                 collect_products items []) w)
  else ([EvValidate resp; EvLog ERROR "Failed to get product iot map" []],
        outcome (raise_failure resp "getting product iot map") w).
Proof.
  unfold products_of_reply.
  erewrite run_bind_ok by reflexivity. simpl.
  destruct (eq_int (dict_get_or resp "code" PNone) 0
            || eq_str (dict_get_or resp "code" PNone) "0000").
  - f_equal. f_equal. unfold trace, bind, lift.
    destruct (dict_item resp "data") as [seq|]; simpl; [|reflexivity].
    destruct (py_iter seq) as [items|]; simpl; [|reflexivity].
    pose proof (collect_products_trace items [] w) as H.
    unfold trace in H. destruct (collect_products items [] w); exact H.
  - unfold trace at 1, outcome at 1.
    erewrite run_bind_ok by reflexivity.
    unfold trace, outcome. rewrite raise_failure_run. reflexivity.
Qed.

Lemma get_product_iot_map_run w :
  get_product_iot_map w =
  match authenticate w with
  | Throws what => ([EvBuilt []; EvAuthenticate], Raise (Foreign what))
  | Returns c =>
      let req := mkRequest PATH_API_PIM_PRODUCT_IOT_MAP [] None None c in
      match post w req with
      | Throws what =>
          ([EvBuilt []; EvAuthenticate; EvPost req], Raise (Foreign what))
      | Returns resp =>
          ([EvBuilt []; EvAuthenticate; EvPost req]
             ++ trace (products_of_reply resp) w,
           outcome (products_of_reply resp) w)%list
      end
  end.
Proof.
  unfold get_product_iot_map, bind, await_authenticate, await_post, emit,
    trace, outcome.
  destruct (authenticate w); simpl; [|reflexivity].
  destruct (post w _); simpl; [|reflexivity].
  destruct (products_of_reply _ w); reflexivity.
Qed.

Lemma append_assoc (a b c : string) : (a ++ b) ++ c = a ++ b ++ c.
Proof.
  induction a as [|ch a IH]; simpl; [reflexivity|]. rewrite IH. reflexivity.
Qed.

Lemma failure_message_contains (error errno what : string) :
  let msg := "failure " ++ error ++ " (" ++ errno ++ ") on " ++ what in
  contains error msg /\ contains errno msg.
Proof.
  simpl. split.
  - exists "failure ", (" (" ++ errno ++ ") on " ++ what). reflexivity.
  - exists ("failure " ++ error ++ " ("), (") on " ++ what).
    rewrite !append_assoc. reflexivity.
Qed.

(** ** The outcome of the validated operations depends on the reply only *)

Lemma no_post_after_validation resp (logs : list event) req :
  only_logs logs -> ~ In (EvPost req) (EvValidate resp :: logs).
Proof.
  intros Hlogs Hin. apply posted_In in Hin. simpl in Hin.
  rewrite (only_logs_posted _ Hlogs) in Hin. exact Hin.
Qed.

Lemma get_devices_replied w req resp :
  In (EvPost req) (trace get_devices w) ->
  post w req = Returns resp ->
  get_devices w =
  ([EvAuthenticate; EvBuilt (json req); EvPost req]
     ++ trace (devices_of_reply resp) w,
   outcome (devices_of_reply resp) w)%list.
Proof.
  unfold trace at 1. rewrite get_devices_run.
  destruct (authenticate w) as [c|]; simpl.
  - match goal with |- context [post w ?r] => set (req0 := r) end.
    destruct (post w req0) as [resp0|] eqn:Hpost; simpl;
      intros [H|[H|[H|H]]] Hreply; try discriminate H.
    + injection H as <-. rewrite Hpost in Hreply.
      injection Hreply as <-. reflexivity.
    + destruct (devices_of_reply_trace resp0 w) as [logs [Ht Hlogs]].
      rewrite Ht in H. destruct (no_post_after_validation _ _ _ Hlogs H).
    + injection H as <-. congruence.
    + destruct H.
  - intros [H|[]]. discriminate H.
Qed.

Lemma get_devices_outcome w req resp :
  In (EvPost req) (trace get_devices w) ->
  post w req = Returns resp ->
  outcome get_devices w = outcome (devices_of_reply resp) w.
Proof.
  intros Hin Hpost. unfold outcome at 1.
  rewrite (get_devices_replied _ _ _ Hin Hpost). reflexivity.
Qed.

Lemma get_product_iot_map_replied w req resp :
  In (EvPost req) (trace get_product_iot_map w) ->
  post w req = Returns resp ->
  get_product_iot_map w =
  ([EvBuilt []; EvAuthenticate; EvPost req]
     ++ trace (products_of_reply resp) w,
   outcome (products_of_reply resp) w)%list.
Proof.
  unfold trace at 1. rewrite get_product_iot_map_run.
  destruct (authenticate w) as [c|]; simpl.
  - match goal with |- context [post w ?r] => set (req0 := r) end.
    destruct (post w req0) as [resp0|] eqn:Hpost; simpl;
      intros [H|[H|[H|H]]] Hreply; try discriminate H.
    + injection H as <-. rewrite Hpost in Hreply.
      injection Hreply as <-. reflexivity.
    + exfalso. unfold trace in H. rewrite products_of_reply_run in H.
      simpl in H.
      destruct (eq_int (dict_get_or resp0 "code" PNone) 0
                || eq_str (dict_get_or resp0 "code" PNone) "0000");
        simpl in H; intuition discriminate.
    + injection H as <-. congruence.
    + destruct H.
  - intros [H|[H|[]]]; discriminate H.
Qed.

Lemma get_product_iot_map_outcome w req resp :
  In (EvPost req) (trace get_product_iot_map w) ->
  post w req = Returns resp ->
  outcome get_product_iot_map w = outcome (products_of_reply resp) w.
Proof.
  intros Hin Hpost. unfold outcome at 1.
  rewrite (get_product_iot_map_replied _ _ _ Hin Hpost). reflexivity.
Qed.

Lemma devices_of_reply_failure resp w :
  eq_int (dict_get_or resp "code" PNone) 0 = false ->
  devices_of_reply resp w =
  ([EvValidate resp; EvLog ERROR "Failed to get devices" []],
   outcome (raise_failure resp "getting devices") w).
Proof. intros H. rewrite devices_of_reply_run, H. reflexivity. Qed.

Lemma products_of_reply_failure resp w :
  eq_int (dict_get_or resp "code" PNone) 0 = false ->
  eq_str (dict_get_or resp "code" PNone) "0000" = false ->
  products_of_reply resp w =
  ([EvValidate resp; EvLog ERROR "Failed to get product iot map" []],
   outcome (raise_failure resp "getting product iot map") w).
Proof.
  intros H0 H1. rewrite products_of_reply_run. simpl. rewrite H0, H1.
  reflexivity.
Qed.

Lemma dict_get_set_same (d : pydict) k v : dict_get (dict_set d k v) k = Some v.
Proof.
  induction d as [|[k' v'] d IH]; simpl.
  - rewrite String.eqb_refl. reflexivity.
  - destruct (String.eqb k' k) eqn:E; simpl; rewrite E; [reflexivity | exact IH].
Qed.

Lemma dict_get_set_other (d : pydict) k v k' :
  String.eqb k k' = false -> dict_get (dict_set d k v) k' = dict_get d k'.
Proof.
  intros Hk. induction d as [|[k0 v0] d IH]; simpl.
  - rewrite Hk. reflexivity.
  - destruct (String.eqb k0 k) eqn:E; simpl.
    + apply String.eqb_eq in E. subst k0. rewrite Hk. reflexivity.
    + rewrite IH. reflexivity.
Qed.

(** ** Commands *)

Lemma send_command_log_run cmd dev w :
  String.eqb (name cmd) GetCleanLogs_name = true ->
  send_command cmd dev w =
  match did dev with
  | Raise e => ([], Raise e)
  | Ok d =>
      match resource dev with
      | Raise e => ([], Raise e)
      | Ok r =>
          let body := [("td", PStr (name cmd)); ("did", d); ("resource", r)] in
          match authenticate w with
          | Throws what => ([EvBuilt body; EvAuthenticate], Raise (Foreign what))
          | Returns c =>
              let req :=
                mkRequest PATH_API_LG_LOG body
                  (Some [("td", PStr (name cmd)); ("u", user_id c);
                         ("cv", PStr "1.67.3"); ("t", PStr "a");
                         ("av", PStr "1.3.1")])
                  (Some _REQUEST_HEADERS) c in
              ([EvBuilt body; EvAuthenticate; EvPost req], of_reply (post w req))
          end
      end
  end.
Proof.
  intros Hname. unfold send_command. rewrite Hname.
  unfold bind, lift, emit, ret, await_authenticate, await_post.
  destruct (did dev) as [d|]; [|reflexivity].
  destruct (resource dev) as [r|]; [|reflexivity].
  simpl. destruct (authenticate w) as [c|]; reflexivity.
Qed.

Lemma send_command_generic_run cmd dev w :
  String.eqb (name cmd) GetCleanLogs_name = false ->
  send_command cmd dev w =
  match did dev with
  | Raise e => ([EvNow], Raise e)
  | Ok d =>
      match resource dev with
      | Raise e => ([EvNow], Raise e)
      | Ok r =>
          match get_class dev with
          | Raise e => ([EvNow], Raise e)
          | Ok c =>
              let header :=
                PDict [("pri", PStr "1"); ("ts", PFloat (now w));
                       ("tzm", PInt 480); ("ver", PStr "0.0.50")] in
              let payload :=
                match args cmd with
                | [] => [("header", header)]
                | _ :: _ => [("header", header);
                             ("body", PDict [("data", PList (args cmd))])]
                end in
              let body := [("cmdName", PStr (name cmd));
                           ("payload", PDict payload);
                           ("payloadType", PStr "j");
                           ("td", PStr "q");
                           ("toId", d);
                           ("toRes", r);
                           ("toType", c)] in
              match authenticate w with
              | Throws what =>
                  ([EvNow; EvBuilt body; EvAuthenticate], Raise (Foreign what))
              | Returns cr =>
                  let req :=
                    mkRequest PATH_API_IOT_DEVMANAGER body
                      (Some [("mid", c); ("did", d); ("td", PStr "q");
                             ("u", user_id cr); ("cv", PStr "1.67.3");
                             ("t", PStr "a"); ("av", PStr "1.3.1")])
                      (Some _REQUEST_HEADERS) cr in
                  ([EvNow; EvBuilt body; EvAuthenticate; EvPost req],
                   of_reply (post w req))
              end
          end
      end
  end.
Proof.
  intros Hname. unfold send_command. rewrite Hname.
  unfold bind, lift, emit, ret, datetime_now, await_authenticate, await_post.
  destruct (did dev) as [d|]; [|reflexivity].
  destruct (resource dev) as [r|]; [|reflexivity].
  destruct (get_class dev) as [c|]; [|reflexivity].
  destruct (args cmd) as [|arg rest]; simpl;
    destruct (authenticate w) as [cr|]; reflexivity.
Qed.

(** ** The validated operations *)

(** C1. When the device-list reply has a code equal to 0 and a devices
    sequence of entries, [get_devices] returns one DeviceInfo for each entry
    whose company field equals "eco-ng", in the order of the reply and with
    the entry's own did, resource and class; entries with any other company
    (or none) are left out. *)
Theorem get_devices_keeps_eco_ng_entries :
  forall (w : World) (req : request) (resp : pydict) (entries : list pydict),
    In (EvPost req) (trace get_devices w) ->
    post w req = Returns resp ->
    code_is_zero resp ->
    dict_get resp "devices" = Some (PList (map PDict entries)) ->
    exists devices : list DeviceInfo,
      outcome get_devices w = Ok devices /\
      map raw devices = filter spec_is_eco_ng entries /\
      Forall2 (fun dev entry =>
                 did dev = dict_item entry "did" /\
                 resource dev = dict_item entry "resource" /\
                 get_class dev = dict_item entry "class")
              devices (filter spec_is_eco_ng entries).
Proof.
  intros w req resp entries Hin Hpost Hcode Hdevices.
  exists (map mkDeviceInfo (filter spec_is_eco_ng entries)).
  split; [|split].
  - rewrite (get_devices_outcome _ _ _ Hin Hpost).
    unfold outcome at 1. rewrite devices_of_reply_run.
    apply code_check_zero in Hcode. rewrite Hcode.
    unfold outcome at 1, bind, lift, dict_item. rewrite Hdevices. simpl.
    pose proof (collect_devices_run entries [] w) as Hrun.
    unfold outcome in Hrun.
    destruct (collect_devices (map PDict entries) [] w). exact Hrun.
  - rewrite map_map. simpl. apply map_id.
  - induction (filter spec_is_eco_ng entries) as [|entry rest IH]; simpl.
    + constructor.
    + constructor; [repeat split | exact IH].
Qed.

(** C6. When the device-list reply has a code that is not 0, and carries
    error and errno, [get_devices] raises ApiError with the message
    "failure {error} ({errno}) on getting devices". *)
Theorem get_devices_failure_message :
  forall (w : World) (req : request) (resp : pydict) (error errno : pyval),
    In (EvPost req) (trace get_devices w) ->
    post w req = Returns resp ->
    ~ code_is_zero resp ->
    dict_get resp "error" = Some error ->
    dict_get resp "errno" = Some errno ->
    outcome get_devices w =
    Raise (ApiError ("failure " ++ py_str error ++ " (" ++ py_str errno
                     ++ ") on getting devices")).
Proof.
  intros w req resp error errno Hin Hpost Hcode Herror Herrno.
  rewrite (get_devices_outcome _ _ _ Hin Hpost).
  unfold outcome at 1. rewrite devices_of_reply_failure.
  - unfold outcome. rewrite raise_failure_run, Herror, Herrno. reflexivity.
  - destruct (eq_int (dict_get_or resp "code" PNone) 0) eqn:E; [|reflexivity].
    apply code_check_zero in E. contradiction.
Qed.

(** C2. [get_product_iot_map] takes the reply for a success exactly when
    its code equals 0 or "0000", and goes down its failure path for every
    other code: it returns a result only with such a code; with such a code
    and a data sequence of entries it does return one; with any other code,
    and error and errno in the reply, it raises ApiError with a message that
    contains both. *)
Theorem get_product_iot_map_success_codes :
  forall (w : World) (req : request) (resp : pydict),
    In (EvPost req) (trace get_product_iot_map w) ->
    post w req = Returns resp ->
    (took_failure_path "Failed to get product iot map"
                       (trace get_product_iot_map w) <->
     ~ (code_is_zero resp \/ code_is_0000 resp)) /\
    (is_ok (outcome get_product_iot_map w) = true ->
     code_is_zero resp \/ code_is_0000 resp) /\
    (code_is_zero resp \/ code_is_0000 resp ->
     forall items,
       dict_get resp "data" = Some (PList items) ->
       forallb entry_ok items = true ->
       is_ok (outcome get_product_iot_map w) = true) /\
    (~ (code_is_zero resp \/ code_is_0000 resp) ->
     forall error errno,
       dict_get resp "error" = Some error ->
       dict_get resp "errno" = Some errno ->
       exists msg,
         outcome get_product_iot_map w = Raise (ApiError msg) /\
         contains (py_str error) msg /\ contains (py_str errno) msg).
Proof.
  intros w req resp Hin Hpost.
  unfold took_failure_path, outcome, trace.
  rewrite (get_product_iot_map_replied _ _ _ Hin Hpost).
  unfold outcome, trace. rewrite products_of_reply_run.
  pose proof (product_code_check resp) as Hcheck. simpl in *.
  destruct (eq_int (dict_get_or resp "code" PNone) 0
            || eq_str (dict_get_or resp "code" PNone) "0000"); simpl.
  - split; [|split; [|split]].
    + split.
      * intros [H|[H|[H|[H|[]]]]]; discriminate H.
      * intros Hno. exfalso. apply Hno, Hcheck. reflexivity.
    + intros _. apply Hcheck. reflexivity.
    + intros _ items Hdata Hitems.
      unfold outcome, bind, lift, dict_item. rewrite Hdata. simpl.
      pose proof (collect_products_ok items [] w Hitems) as Hok.
      unfold outcome in Hok. destruct (collect_products items [] w).
      exact Hok.
    + intros Hno. exfalso. apply Hno, Hcheck. reflexivity.
  - split; [|split; [|split]].
    + split.
      * intros _ Hyes. apply Hcheck in Hyes. discriminate Hyes.
      * intros _. do 4 right. left. reflexivity.
    + rewrite raise_failure_never_ok. discriminate.
    + intros Hyes. apply Hcheck in Hyes. discriminate Hyes.
    + intros _ error errno Herror Herrno.
      unfold outcome. rewrite raise_failure_run, Herror, Herrno.
      eexists. split; [reflexivity|].
      apply (failure_message_contains (py_str error) (py_str errno)
                                      "getting product iot map").
Qed.

(** C10. A reply without a code field sends [get_devices] and
    [get_product_iot_map] down the failure path: the failure is logged, the
    outcome is that of raising ApiError from the reply's error and errno,
    never a result, and it is the outcome the same reply would have with any
    non-success code added. *)
Theorem missing_code_takes_failure_path :
  forall (w : World) (req1 req2 : request) (resp : pydict),
    In (EvPost req1) (trace get_devices w) ->
    post w req1 = Returns resp ->
    In (EvPost req2) (trace get_product_iot_map w) ->
    post w req2 = Returns resp ->
    dict_get resp "code" = None ->
    (took_failure_path "Failed to get devices" (trace get_devices w) /\
     outcome get_devices w = outcome (raise_failure resp "getting devices") w /\
     is_ok (outcome get_devices w) = false /\
     forall code, eq_int code 0 = false ->
       outcome (devices_of_reply (dict_set resp "code" code)) w =
       outcome get_devices w) /\
    (took_failure_path "Failed to get product iot map"
                       (trace get_product_iot_map w) /\
     outcome get_product_iot_map w =
       outcome (raise_failure resp "getting product iot map") w /\
     is_ok (outcome get_product_iot_map w) = false /\
     forall code, eq_int code 0 = false -> eq_str code "0000" = false ->
       outcome (products_of_reply (dict_set resp "code" code)) w =
       outcome get_product_iot_map w).
Proof.
  intros w req1 req2 resp Hin1 Hpost1 Hin2 Hpost2 Hcode.
  assert (Hor : dict_get_or resp "code" PNone = PNone)
    by (unfold dict_get_or; rewrite Hcode; reflexivity).
  split.
  - split.
    { unfold took_failure_path, trace.
      rewrite (get_devices_replied _ _ _ Hin1 Hpost1). unfold trace.
      rewrite devices_of_reply_failure by (rewrite Hor; reflexivity).
      simpl. do 4 right. left. reflexivity. }
    rewrite (get_devices_outcome _ _ _ Hin1 Hpost1).
    assert (Hfail : outcome (devices_of_reply resp) w =
                    outcome (raise_failure resp "getting devices") w).
    { unfold outcome at 1. rewrite devices_of_reply_failure; [reflexivity|].
      rewrite Hor. reflexivity. }
    rewrite Hfail. split; [reflexivity | split].
    + apply raise_failure_never_ok.
    + intros code Hne. unfold outcome at 1.
      rewrite devices_of_reply_failure.
      * unfold outcome. rewrite !raise_failure_run.
        rewrite !dict_get_set_other by reflexivity. reflexivity.
      * unfold dict_get_or. rewrite dict_get_set_same. exact Hne.
  - split.
    { unfold took_failure_path, trace.
      rewrite (get_product_iot_map_replied _ _ _ Hin2 Hpost2). unfold trace.
      rewrite products_of_reply_failure by (rewrite Hor; reflexivity).
      simpl. do 4 right. left. reflexivity. }
    rewrite (get_product_iot_map_outcome _ _ _ Hin2 Hpost2).
    assert (Hfail : outcome (products_of_reply resp) w =
                    outcome (raise_failure resp "getting product iot map") w).
    { unfold outcome at 1.
      rewrite products_of_reply_failure; [reflexivity| |]; rewrite Hor;
        reflexivity. }
    rewrite Hfail. split; [reflexivity | split].
    + apply raise_failure_never_ok.
    + intros code Hne0 Hne1. unfold outcome at 1.
      rewrite products_of_reply_failure.
      * unfold outcome. rewrite !raise_failure_run.
        rewrite !dict_get_set_other by reflexivity. reflexivity.
      * unfold dict_get_or. rewrite dict_get_set_same. exact Hne0.
      * unfold dict_get_or. rewrite dict_get_set_same. exact Hne1.
Qed.

(** ** Commands *)

(** C3. [send_command] hands the transport one request, of one of two
    shapes chosen by whether the command's name is the log-retrieval name:
    if it is, the body has exactly the keys td, did and resource and goes to
    the log-service path; otherwise the body carries cmdName, payloadType
    "j", td "q", toId, toRes and toType of the device and a payload with a
    header block, and goes to the device-management path. *)
Theorem send_command_envelope_shapes :
  forall (w : World) (cmd : Command) (dev : DeviceInfo) (d r c : pyval)
         (creds : Credentials),
    did dev = Ok d ->
    resource dev = Ok r ->
    get_class dev = Ok c ->
    authenticate w = Returns creds ->
    exists req,
      posted (trace (send_command cmd dev) w) = [req] /\
      if String.eqb (name cmd) GetCleanLogs_name
      then
        path req = PATH_API_LG_LOG /\
        map fst (json req) = ["td"; "did"; "resource"] /\
        json req = [("td", PStr (name cmd)); ("did", d); ("resource", r)]
      else
        path req = PATH_API_IOT_DEVMANAGER /\
        dict_get (json req) "cmdName" = Some (PStr (name cmd)) /\
        dict_get (json req) "payloadType" = Some (PStr "j") /\
        dict_get (json req) "td" = Some (PStr "q") /\
        dict_get (json req) "toId" = Some d /\
        dict_get (json req) "toRes" = Some r /\
        dict_get (json req) "toType" = Some c /\
        exists payload,
          dict_get (json req) "payload" = Some (PDict payload) /\
          dict_get payload "header" =
          Some (PDict [("pri", PStr "1"); ("ts", PFloat (now w));
                       ("tzm", PInt 480); ("ver", PStr "0.0.50")]).
Proof.
  intros w cmd dev d r c creds Hd Hr Hc Hauth.
  destruct (String.eqb (name cmd) GetCleanLogs_name) eqn:Hname; unfold trace.
  - rewrite (send_command_log_run _ _ _ Hname), Hd, Hr. simpl.
    rewrite Hauth. eexists. split; [reflexivity|]. simpl. auto.
  - rewrite (send_command_generic_run _ _ _ Hname), Hd, Hr, Hc. simpl.
    rewrite Hauth. eexists. split; [reflexivity|]. simpl.
    repeat (split; [reflexivity|]).
    eexists. split; [reflexivity|].
    destruct (args cmd); reflexivity.
Qed.

(** C4. For a command other than log retrieval, the payload of the posted
    body has a body key exactly when the command has arguments; the body is
    then {data: args}, and with no arguments the payload holds the header
    alone. *)
Theorem send_command_payload_body :
  forall (w : World) (cmd : Command) (dev : DeviceInfo) (d r c : pyval)
         (creds : Credentials),
    String.eqb (name cmd) GetCleanLogs_name = false ->
    did dev = Ok d ->
    resource dev = Ok r ->
    get_class dev = Ok c ->
    authenticate w = Returns creds ->
    exists req payload,
      posted (trace (send_command cmd dev) w) = [req] /\
      dict_get (json req) "payload" = Some (PDict payload) /\
      (dict_get payload "body" <> None <-> args cmd <> []) /\
      (args cmd <> [] ->
       dict_get payload "body" = Some (PDict [("data", PList (args cmd))])) /\
      (args cmd = [] ->
       dict_get payload "body" = None /\ map fst payload = ["header"]).
Proof.
  intros w cmd dev d r c creds Hname Hd Hr Hc Hauth. unfold trace.
  rewrite (send_command_generic_run _ _ _ Hname), Hd, Hr, Hc. simpl.
  rewrite Hauth. simpl. eexists. eexists.
  split; [reflexivity|]. split; [reflexivity|].
  destruct (args cmd) as [|arg rest]; simpl.
  - repeat split; try congruence; intros H; exfalso; apply H; reflexivity.
  - repeat split; try congruence; discriminate.
Qed.

(** C5. The query parameters of the posted request hold u = the user
    identifier of the credentials, cv = "1.67.3", t = "a", av = "1.3.1" and
    td = the td of the body (the command name on the log branch, "q"
    otherwise); mid = the device class and did = the device identifier are
    there on the generic branch and only there. *)
Theorem send_command_query_params :
  forall (w : World) (cmd : Command) (dev : DeviceInfo) (d r c : pyval)
         (creds : Credentials),
    did dev = Ok d ->
    resource dev = Ok r ->
    get_class dev = Ok c ->
    authenticate w = Returns creds ->
    exists req query,
      posted (trace (send_command cmd dev) w) = [req] /\
      query_params req = Some query /\
      dict_get query "u" = Some (user_id creds) /\
      dict_get query "cv" = Some (PStr "1.67.3") /\
      dict_get query "t" = Some (PStr "a") /\
      dict_get query "av" = Some (PStr "1.3.1") /\
      dict_get query "td" = dict_get (json req) "td" /\
      if String.eqb (name cmd) GetCleanLogs_name
      then
        dict_get query "td" = Some (PStr (name cmd)) /\
        dict_get query "mid" = None /\
        dict_get query "did" = None
      else
        dict_get query "td" = Some (PStr "q") /\
        dict_get query "mid" = Some c /\
        dict_get query "did" = Some d.
Proof.
  intros w cmd dev d r c creds Hd Hr Hc Hauth.
  destruct (String.eqb (name cmd) GetCleanLogs_name) eqn:Hname; unfold trace.
  - rewrite (send_command_log_run _ _ _ Hname), Hd, Hr. simpl.
    rewrite Hauth. eexists. eexists. split; [reflexivity|]. simpl.
    repeat split; reflexivity.
  - rewrite (send_command_generic_run _ _ _ Hname), Hd, Hr, Hc. simpl.
    rewrite Hauth. eexists. eexists. split; [reflexivity|]. simpl.
    repeat split; reflexivity.
Qed.

(** C7. [send_command] never raises ApiError and never inspects the reply:
    once the transport has been handed the request, the outcome is the
    transport's own, so a reply is returned as it is, whatever its code. *)
Theorem send_command_returns_raw_reply :
  forall (w : World) (cmd : Command) (dev : DeviceInfo),
    is_api_error (outcome (send_command cmd dev) w) = false /\
    ~ In Validate (stages (trace (send_command cmd dev) w)) /\
    (forall req, In (EvPost req) (trace (send_command cmd dev) w) ->
                 outcome (send_command cmd dev) w = of_reply (post w req)) /\
    (forall req resp, In (EvPost req) (trace (send_command cmd dev) w) ->
                      post w req = Returns resp ->
                      outcome (send_command cmd dev) w = Ok resp).
Proof.
  intros w cmd dev.
  assert (Hmain :
    is_api_error (outcome (send_command cmd dev) w) = false /\
    ~ In Validate (stages (trace (send_command cmd dev) w)) /\
    (forall req, In (EvPost req) (trace (send_command cmd dev) w) ->
                 outcome (send_command cmd dev) w = of_reply (post w req))).
  { unfold outcome, trace, did, resource, get_class, dict_item.
    destruct (String.eqb (name cmd) GetCleanLogs_name) eqn:Hname.
    - rewrite (send_command_log_run _ _ _ Hname).
      unfold did, resource, dict_item.
      destruct (dict_get (raw dev) "did");
        [|simpl; intuition discriminate].
      destruct (dict_get (raw dev) "resource");
        [|simpl; intuition discriminate].
      simpl. destruct (authenticate w) as [cr|]; simpl.
      + split; [destruct (post w _); reflexivity|].
        split; [intuition discriminate|].
        intros req [H|[H|[H|[]]]]; try discriminate H.
        injection H as <-. reflexivity.
      + intuition discriminate.
    - rewrite (send_command_generic_run _ _ _ Hname).
      unfold did, resource, get_class, dict_item.
      destruct (dict_get (raw dev) "did");
        [|simpl; intuition discriminate].
      destruct (dict_get (raw dev) "resource");
        [|simpl; intuition discriminate].
      destruct (dict_get (raw dev) "class");
        [|simpl; intuition discriminate].
      simpl. destruct (authenticate w) as [cr|]; simpl.
      + split; [destruct (post w _); reflexivity|].
        split; [intuition discriminate|].
        intros req [H|[H|[H|[H|[]]]]]; try discriminate H.
        injection H as <-. reflexivity.
      + intuition discriminate. }
  destruct Hmain as [H1 [H2 H3]].
  repeat split; auto.
  intros req resp Hin Hpost. rewrite (H3 _ Hin), Hpost. reflexivity.
Qed.

(** ** The order of the stages *)

(** C8, as amended. [get_devices] acquires the credentials, builds the body,
    invokes the transport and validates, in this order; [get_product_iot_map]
    builds its body before it acquires the credentials; [send_command]
    builds the envelope before it acquires the credentials and validates
    nothing.  A run that is cut short stops inside its sequence, and a run
    whose collaborators return goes through all of it. *)
Theorem stage_order_of_the_operations :
  forall (w : World) (cmd : Command) (dev : DeviceInfo),
    (prefix_of (stages (trace get_devices w))
               [Acquire; Build; Transport; Validate] /\
     prefix_of (stages (trace get_product_iot_map w))
               [Build; Acquire; Transport; Validate] /\
     prefix_of (stages (trace (send_command cmd dev) w))
               [Build; Acquire; Transport]) /\
    (forall creds resp,
       authenticate w = Returns creds ->
       (forall req, post w req = Returns resp) ->
       stages (trace get_devices w) = [Acquire; Build; Transport; Validate] /\
       stages (trace get_product_iot_map w) =
       [Build; Acquire; Transport; Validate] /\
       (is_ok (did dev) = true -> is_ok (resource dev) = true ->
        is_ok (get_class dev) = true ->
        stages (trace (send_command cmd dev) w) = [Build; Acquire; Transport])).
Proof.
  intros w cmd dev.
  assert (Hdev : forall resp,
            stages (trace (devices_of_reply resp) w) = [Validate]).
  { intros resp. destruct (devices_of_reply_trace resp w) as [logs [Ht Hl]].
    rewrite Ht. simpl. rewrite (only_logs_stages _ Hl). reflexivity. }
  assert (Hprod : forall resp,
            stages (trace (products_of_reply resp) w) = [Validate]).
  { intros resp. unfold trace. rewrite products_of_reply_run. simpl.
    destruct (eq_int (dict_get_or resp "code" PNone) 0
              || eq_str (dict_get_or resp "code" PNone) "0000"); reflexivity. }
  split; [split; [|split]|].
  - unfold trace at 1. rewrite get_devices_run.
    destruct (authenticate w) as [c|]; simpl.
    + destruct (post w _) as [resp|]; simpl.
      * rewrite Hdev. exists []. reflexivity.
      * exists [Validate]. reflexivity.
    + exists [Build; Transport; Validate]. reflexivity.
  - unfold trace at 1. rewrite get_product_iot_map_run.
    destruct (authenticate w) as [c|]; simpl.
    + destruct (post w _) as [resp|]; simpl.
      * rewrite Hprod. exists []. reflexivity.
      * exists [Validate]. reflexivity.
    + exists [Transport; Validate]. reflexivity.
  - unfold trace.
    destruct (String.eqb (name cmd) GetCleanLogs_name) eqn:Hname.
    + rewrite (send_command_log_run _ _ _ Hname).
      destruct (did dev); [|exists [Build; Acquire; Transport]; reflexivity].
      destruct (resource dev);
        [|exists [Build; Acquire; Transport]; reflexivity].
      simpl. destruct (authenticate w); simpl;
        [exists [] | exists [Transport]]; reflexivity.
    + rewrite (send_command_generic_run _ _ _ Hname).
      destruct (did dev); [|exists [Build; Acquire; Transport]; reflexivity].
      destruct (resource dev);
        [|exists [Build; Acquire; Transport]; reflexivity].
      destruct (get_class dev);
        [|exists [Build; Acquire; Transport]; reflexivity].
      simpl. destruct (authenticate w); simpl;
        [exists [] | exists [Transport]]; reflexivity.
  - intros creds resp Hauth Hpost. split; [|split].
    + unfold trace at 1. rewrite get_devices_run, Hauth. simpl.
      rewrite Hpost. simpl. rewrite Hdev. reflexivity.
    + unfold trace at 1. rewrite get_product_iot_map_run, Hauth. simpl.
      rewrite Hpost. simpl. rewrite Hprod. reflexivity.
    + intros Hd Hr Hc. unfold trace.
      destruct (String.eqb (name cmd) GetCleanLogs_name) eqn:Hname.
      * rewrite (send_command_log_run _ _ _ Hname).
        destruct (did dev); [|discriminate Hd].
        destruct (resource dev); [|discriminate Hr].
        simpl. rewrite Hauth. reflexivity.
      * rewrite (send_command_generic_run _ _ _ Hname).
        destruct (did dev); [|discriminate Hd].
        destruct (resource dev); [|discriminate Hr].
        destruct (get_class dev); [|discriminate Hc].
        simpl. rewrite Hauth. reflexivity.
Qed.

(** ** The portal URL *)


(** *** Characters *)





(** *** Strings *)








(** *** Hosts *)



(** *** Splitting a portal URL and a relative path *)






(** *** Putting a portal URL together *)






Example portal_url_cn (cont : string) :
  _get_portal_url (mkConfiguration cont "cn") "appsvr/app.do" =
  Ok "https://portal.ecouser.net/api/appsvr/app.do".
Proof. reflexivity. Qed.

Example portal_url_us_na :
  _get_portal_url (mkConfiguration "na" "us") "appsvr/app.do" =
  Ok "https://portal-na.ecouser.net/api/appsvr/app.do".
Proof. reflexivity. Qed.

(** * Further properties of the module *)

(** ** What is sent, and what happens when a collaborator fails *)

Lemma devices_of_reply_posted resp w :
  posted (trace (devices_of_reply resp) w) = [].
Proof.
  destruct (devices_of_reply_trace resp w) as [logs [Ht Hlogs]].
  rewrite Ht. simpl. apply only_logs_posted, Hlogs.
Qed.

Lemma products_of_reply_posted resp w :
  posted (trace (products_of_reply resp) w) = [].
Proof.
  unfold trace. rewrite products_of_reply_run. simpl.
  destruct (eq_int (dict_get_or resp "code" PNone) 0
            || eq_str (dict_get_or resp "code" PNone) "0000"); reflexivity.
Qed.

(** X1. Once the authenticator has returned credentials, [get_devices]
    hands the transport exactly one request, whatever the reply: the
    device-list path, the body {userid, todo: "GetGlobalDeviceList"} with
    the user identifier of these credentials, no query parameters, no
    headers, and these credentials. *)
Theorem get_devices_posts_one_request :
  forall (w : World) (creds : Credentials),
    authenticate w = Returns creds ->
    posted (trace get_devices w) =
    [mkRequest PATH_API_APPSVR_APP
       [("userid", user_id creds); ("todo", PStr "GetGlobalDeviceList")]
       None None creds].
Proof.
  intros w creds Hauth. unfold trace at 1.
  rewrite get_devices_run, Hauth. simpl.
  destruct (post w _) as [resp|]; simpl; [|reflexivity].
  rewrite devices_of_reply_posted. reflexivity.
Qed.

(** X2. Once the authenticator has returned credentials,
    [get_product_iot_map] hands the transport exactly one request, whatever
    the reply: the product-map path, an empty body, no query parameters, no
    headers, and these credentials. *)
Theorem get_product_iot_map_posts_one_request :
  forall (w : World) (creds : Credentials),
    authenticate w = Returns creds ->
    posted (trace get_product_iot_map w) =
    [mkRequest PATH_API_PIM_PRODUCT_IOT_MAP [] None None creds].
Proof.
  intros w creds Hauth. unfold trace at 1.
  rewrite get_product_iot_map_run, Hauth. simpl.
  destruct (post w _) as [resp|]; simpl; [|reflexivity].
  rewrite products_of_reply_posted. reflexivity.
Qed.

(** X3. When the authenticator fails, no operation reaches the transport:
    [get_devices] and [get_product_iot_map] end with the authenticator's
    exception, and so does [send_command] unless reading the device failed
    before. *)
Theorem authenticator_failure_stops_the_operation :
  forall (w : World) (cmd : Command) (dev : DeviceInfo) (what : string),
    authenticate w = Throws what ->
    (posted (trace get_devices w) = [] /\
     outcome get_devices w = Raise (Foreign what)) /\
    (posted (trace get_product_iot_map w) = [] /\
     outcome get_product_iot_map w = Raise (Foreign what)) /\
    (posted (trace (send_command cmd dev) w) = [] /\
     is_ok (outcome (send_command cmd dev) w) = false /\
     (is_ok (did dev) = true -> is_ok (resource dev) = true ->
      is_ok (get_class dev) = true ->
      outcome (send_command cmd dev) w = Raise (Foreign what))).
Proof.
  intros w cmd dev what Hauth. split; [|split].
  - unfold trace, outcome. rewrite get_devices_run, Hauth. split; reflexivity.
  - unfold trace, outcome. rewrite get_product_iot_map_run, Hauth.
    split; reflexivity.
  - unfold trace, outcome.
    destruct (String.eqb (name cmd) GetCleanLogs_name) eqn:Hname.
    + rewrite (send_command_log_run _ _ _ Hname).
      destruct (did dev); [|repeat split; simpl; auto; discriminate].
      destruct (resource dev); [|repeat split; simpl; auto; discriminate].
      simpl. rewrite Hauth. repeat split.
    + rewrite (send_command_generic_run _ _ _ Hname).
      destruct (did dev); [|repeat split; simpl; auto; discriminate].
      destruct (resource dev); [|repeat split; simpl; auto; discriminate].
      destruct (get_class dev); [|repeat split; simpl; auto; discriminate].
      simpl. rewrite Hauth. repeat split.
Qed.

(** X4. When the transport fails, [get_devices] and [get_product_iot_map]
    pass its exception on as it is: the run ends with the request, nothing
    is validated and nothing is logged. *)
Theorem transport_failure_is_passed_on :
  forall (w : World) (req : request) (what : string),
    post w req = Throws what ->
    (In (EvPost req) (trace get_devices w) ->
     get_devices w =
     ([EvAuthenticate; EvBuilt (json req); EvPost req], Raise (Foreign what))) /\
    (In (EvPost req) (trace get_product_iot_map w) ->
     get_product_iot_map w =
     ([EvBuilt []; EvAuthenticate; EvPost req], Raise (Foreign what))).
Proof.
  intros w req what Hpost. split.
  - unfold trace at 1. rewrite get_devices_run.
    destruct (authenticate w) as [c|]; simpl.
    + match goal with |- context [post w ?r] => set (req0 := r) end.
      destruct (post w req0) as [resp0|] eqn:Hpost0; simpl;
        intros [H|[H|[H|H]]]; try discriminate H.
      * injection H as <-. congruence.
      * apply posted_In in H. rewrite devices_of_reply_posted in H.
        destruct H.
      * injection H as <-. rewrite Hpost in Hpost0.
        injection Hpost0 as <-. reflexivity.
      * destruct H.
    + intros [H|[]]. discriminate H.
  - unfold trace at 1. rewrite get_product_iot_map_run.
    destruct (authenticate w) as [c|]; simpl.
    + match goal with |- context [post w ?r] => set (req0 := r) end.
      destruct (post w req0) as [resp0|] eqn:Hpost0; simpl;
        intros [H|[H|[H|H]]]; try discriminate H.
      * injection H as <-. congruence.
      * apply posted_In in H. rewrite products_of_reply_posted in H.
        destruct H.
      * injection H as <-. rewrite Hpost in Hpost0.
        injection Hpost0 as <-. reflexivity.
      * destruct H.
    + intros [H|[H|[]]]; discriminate H.
Qed.

(** ** The device list: logs and malformed replies *)

Lemma collect_devices_trace (entries : list pydict) acc w :
  trace (collect_devices (map PDict entries) acc) w =
  map skip_record (filter (fun d => negb (spec_is_eco_ng d)) entries).
Proof.
  revert acc. induction entries as [|d rest IH]; intros acc; simpl.
  - reflexivity.
  - rewrite company_check_is_spec. destruct (spec_is_eco_ng d); simpl.
    + apply IH.
    + unfold trace. erewrite run_bind_ok by reflexivity.
      simpl. f_equal. apply IH.
Qed.

Lemma collect_devices_logs_skips items acc w :
  forall ev, In ev (trace (collect_devices items acc) w) ->
             exists d, ev = skip_record d.
Proof.
  revert acc. induction items as [|device rest IH]; intros acc ev; simpl.
  - intros [].
  - destruct device as [| | | | | |d]; try (intros []).
    destruct (eq_str (dict_get_or d "company" PNone) "eco-ng").
    + apply IH.
    + unfold trace. erewrite run_bind_ok by reflexivity. simpl.
      intros [H|H]; [exists d; symmetry; exact H | exact (IH _ _ H)].
Qed.

Lemma collect_devices_non_mapping items acc w :
  existsb (fun v => negb (is_mapping v)) items = true ->
  outcome (collect_devices items acc) w = Raise (AttributeError "get").
Proof.
  revert acc. induction items as [|device rest IH]; intros acc Hex;
    simpl in Hex; [discriminate Hex|].
  destruct device as [| | | | | |d]; try reflexivity.
  simpl in Hex. simpl.
  destruct (eq_str (dict_get_or d "company" PNone) "eco-ng").
  - apply IH, Hex.
  - unfold outcome. erewrite run_bind_ok by reflexivity. simpl.
    apply IH, Hex.
Qed.

Lemma devices_of_reply_success resp w :
  code_is_zero resp ->
  devices_of_reply resp w =
  (EvValidate resp ::
     trace (seq <- lift (dict_item resp "devices") ;;
            items <- lift (py_iter seq) ;;
            collect_devices items []) w,
   outcome (seq <- lift (dict_item resp "devices") ;;
            items <- lift (py_iter seq) ;;
            collect_devices items []) w).
Proof.
  intros Hcode. apply code_check_zero in Hcode.
  rewrite devices_of_reply_run, Hcode. reflexivity.
Qed.

Lemma not_code_is_zero resp :
  ~ code_is_zero resp -> eq_int (dict_get_or resp "code" PNone) 0 = false.
Proof.
  intros Hcode.
  destruct (eq_int (dict_get_or resp "code" PNone) 0) eqn:E; [|reflexivity].
  apply code_check_zero in E. contradiction.
Qed.

(** X5. On a successful device list, the run writes one DEBUG record for
    each entry it leaves out, in the order of the reply and with the entry
    as its argument, and nothing else after the validation. *)
Theorem get_devices_logs_each_skipped_entry :
  forall (w : World) (req : request) (resp : pydict) (entries : list pydict),
    In (EvPost req) (trace get_devices w) ->
    post w req = Returns resp ->
    code_is_zero resp ->
    dict_get resp "devices" = Some (PList (map PDict entries)) ->
    trace get_devices w =
    ([EvAuthenticate; EvBuilt (json req); EvPost req; EvValidate resp]
       ++ map skip_record (filter (fun d => negb (spec_is_eco_ng d)) entries))%list.
Proof.
  intros w req resp entries Hin Hpost Hcode Hdevices.
  unfold trace at 1. rewrite (get_devices_replied _ _ _ Hin Hpost).
  simpl. do 3 f_equal.
  unfold trace at 1. rewrite (devices_of_reply_success _ _ Hcode).
  simpl. f_equal.
  unfold trace at 1, bind, lift, dict_item. rewrite Hdevices. simpl.
  pose proof (collect_devices_trace entries [] w) as H. unfold trace in H.
  destruct (collect_devices (map PDict entries) [] w). exact H.
Qed.

(** X6. A device-list reply with a code equal to 0 but without a devices
    field makes [get_devices] raise KeyError for "devices"; with a devices
    field that cannot be iterated (null, a boolean, a number) it raises
    TypeError.  Neither is turned into an ApiError. *)
Theorem get_devices_without_a_devices_sequence :
  forall (w : World) (req : request) (resp : pydict),
    In (EvPost req) (trace get_devices w) ->
    post w req = Returns resp ->
    code_is_zero resp ->
    (dict_get resp "devices" = None ->
     outcome get_devices w = Raise (KeyError "devices")) /\
    (forall seq, dict_get resp "devices" = Some seq -> iterable seq = false ->
                 outcome get_devices w = Raise TypeError).
Proof.
  intros w req resp Hin Hpost Hcode.
  rewrite (get_devices_outcome _ _ _ Hin Hpost).
  unfold outcome at 1 2. rewrite (devices_of_reply_success _ _ Hcode). simpl.
  unfold outcome, bind, lift, dict_item. split.
  - intros Hnone. rewrite Hnone. reflexivity.
  - intros seq Hsome Hiter. rewrite Hsome. simpl.
    destruct seq; try discriminate Hiter; reflexivity.
Qed.

(** X7. If any item of the devices sequence is not a mapping, the whole
    call fails with AttributeError (there is no [get] to call on it): the
    devices collected before it are not returned. *)
Theorem get_devices_rejects_a_non_mapping_entry :
  forall (w : World) (req : request) (resp : pydict) (seq : pyval)
         (items : list pyval),
    In (EvPost req) (trace get_devices w) ->
    post w req = Returns resp ->
    code_is_zero resp ->
    dict_get resp "devices" = Some seq ->
    py_iter seq = Ok items ->
    existsb (fun v => negb (is_mapping v)) items = true ->
    outcome get_devices w = Raise (AttributeError "get").
Proof.
  intros w req resp seq items Hin Hpost Hcode Hdevices Hiter Hbad.
  rewrite (get_devices_outcome _ _ _ Hin Hpost).
  unfold outcome at 1. rewrite (devices_of_reply_success _ _ Hcode). simpl.
  unfold outcome at 1, bind, lift, dict_item. rewrite Hdevices. simpl.
  rewrite Hiter.
  pose proof (collect_devices_non_mapping items [] w Hbad) as H.
  unfold outcome in H. destruct (collect_devices items [] w). exact H.
Qed.

(** X8. [get_devices] logs "Failed to get devices" exactly when the reply's
    code does not equal 0 (a missing code included), and it returns a list
    only when the code equals 0. *)
Theorem get_devices_failure_path_iff :
  forall (w : World) (req : request) (resp : pydict),
    In (EvPost req) (trace get_devices w) ->
    post w req = Returns resp ->
    (took_failure_path "Failed to get devices" (trace get_devices w) <->
     ~ code_is_zero resp) /\
    (is_ok (outcome get_devices w) = true -> code_is_zero resp).
Proof.
  intros w req resp Hin Hpost.
  rewrite (get_devices_outcome _ _ _ Hin Hpost).
  unfold took_failure_path, trace at 1.
  rewrite (get_devices_replied _ _ _ Hin Hpost).
  pose proof (code_check_zero resp) as Hcheck.
  destruct (eq_int (dict_get_or resp "code" PNone) 0) eqn:E.
  - assert (Hcode : code_is_zero resp) by (apply Hcheck; reflexivity).
    split; [|intros _; exact Hcode]. split; [|contradiction].
    unfold trace. rewrite (devices_of_reply_success _ _ Hcode). simpl.
    intros [H|[H|[H|[H|H]]]]; try discriminate H. exfalso.
    unfold trace, bind, lift in H.
    destruct (dict_item resp "devices") as [seq|]; simpl in H; [|exact H].
    destruct (py_iter seq) as [items|]; simpl in H; [|exact H].
    pose proof (collect_devices_logs_skips items [] w) as Hskips.
    unfold trace in Hskips.
    destruct (collect_devices items [] w) as [t r]. simpl in *.
    destruct (Hskips _ H) as [d Hd]. discriminate Hd.
  - assert (Hcode : ~ code_is_zero resp).
    { intros Hyes. apply Hcheck in Hyes. discriminate Hyes. }
    unfold trace, outcome. rewrite (devices_of_reply_failure _ _ E). simpl.
    split.
    + split; [intros _; exact Hcode|]. intros _. do 4 right. left. reflexivity.
    + rewrite raise_failure_never_ok. discriminate.
Qed.

(** X9. When [get_devices] fails and the reply has no error field, the
    call raises KeyError for "error"; with an error but no errno it raises
    KeyError for "errno".  The failure has been logged before, and that is
    the only log record. *)
Theorem get_devices_failure_without_fields :
  forall (w : World) (req : request) (resp : pydict),
    In (EvPost req) (trace get_devices w) ->
    post w req = Returns resp ->
    ~ code_is_zero resp ->
    (dict_get resp "error" = None ->
     outcome get_devices w = Raise (KeyError "error")) /\
    (forall error, dict_get resp "error" = Some error ->
                   dict_get resp "errno" = None ->
                   outcome get_devices w = Raise (KeyError "errno")) /\
    logged (trace get_devices w) = [EvLog ERROR "Failed to get devices" []].
Proof.
  intros w req resp Hin Hpost Hcode. apply not_code_is_zero in Hcode.
  unfold outcome, trace. rewrite (get_devices_replied _ _ _ Hin Hpost).
  unfold outcome, trace. rewrite (devices_of_reply_failure _ _ Hcode).
  simpl. unfold outcome. rewrite raise_failure_run. simpl.
  split; [|split].
  - intros Hnone. rewrite Hnone. reflexivity.
  - intros error Hsome Hnone. rewrite Hsome, Hnone. reflexivity.
  - reflexivity.
Qed.

(** ** The product map: failures *)

Lemma not_product_code resp :
  ~ (code_is_zero resp \/ code_is_0000 resp) ->
  eq_int (dict_get_or resp "code" PNone) 0 = false /\
  eq_str (dict_get_or resp "code" PNone) "0000" = false.
Proof.
  intros Hcode. pose proof (product_code_check resp) as Hcheck. simpl in Hcheck.
  destruct (eq_int (dict_get_or resp "code" PNone) 0);
    destruct (eq_str (dict_get_or resp "code" PNone) "0000");
    try (exfalso; apply Hcode, Hcheck; reflexivity).
  split; reflexivity.
Qed.

(** X10. When the product-map reply has a code other than 0 and "0000" and
    carries error and errno, [get_product_iot_map] raises ApiError with the
    message "failure {error} ({errno}) on getting product iot map". *)
Theorem get_product_iot_map_failure_message :
  forall (w : World) (req : request) (resp : pydict) (error errno : pyval),
    In (EvPost req) (trace get_product_iot_map w) ->
    post w req = Returns resp ->
    ~ (code_is_zero resp \/ code_is_0000 resp) ->
    dict_get resp "error" = Some error ->
    dict_get resp "errno" = Some errno ->
    outcome get_product_iot_map w =
    Raise (ApiError ("failure " ++ py_str error ++ " (" ++ py_str errno
                     ++ ") on getting product iot map")).
Proof.
  intros w req resp error errno Hin Hpost Hcode Herror Herrno.
  destruct (not_product_code _ Hcode) as [H0 H1].
  rewrite (get_product_iot_map_outcome _ _ _ Hin Hpost).
  unfold outcome at 1. rewrite (products_of_reply_failure _ _ H0 H1).
  unfold outcome. rewrite raise_failure_run, Herror, Herrno. reflexivity.
Qed.

(** X11. When [get_product_iot_map] fails and the reply has no error
    field, the call raises KeyError for "error"; with an error but no errno
    it raises KeyError for "errno".  The failure has been logged before, and
    that is the only log record. *)
Theorem get_product_iot_map_failure_without_fields :
  forall (w : World) (req : request) (resp : pydict),
    In (EvPost req) (trace get_product_iot_map w) ->
    post w req = Returns resp ->
    ~ (code_is_zero resp \/ code_is_0000 resp) ->
    (dict_get resp "error" = None ->
     outcome get_product_iot_map w = Raise (KeyError "error")) /\
    (forall error, dict_get resp "error" = Some error ->
                   dict_get resp "errno" = None ->
                   outcome get_product_iot_map w = Raise (KeyError "errno")) /\
    logged (trace get_product_iot_map w) =
    [EvLog ERROR "Failed to get product iot map" []].
Proof.
  intros w req resp Hin Hpost Hcode.
  destruct (not_product_code _ Hcode) as [H0 H1].
  unfold outcome, trace. rewrite (get_product_iot_map_replied _ _ _ Hin Hpost).
  unfold outcome, trace. rewrite (products_of_reply_failure _ _ H0 H1).
  simpl. unfold outcome. rewrite raise_failure_run. simpl.
  split; [|split].
  - intros Hnone. rewrite Hnone. reflexivity.
  - intros error Hsome Hnone. rewrite Hsome, Hnone. reflexivity.
  - reflexivity.
Qed.

(** X12. The two validated operations disagree on the code "0000": the
    same reply is a failure for [get_devices], which logs it and returns
    nothing, and a success for [get_product_iot_map], which does not log. *)
Theorem code_0000_succeeds_for_the_product_map_only :
  forall (w : World) (req1 req2 : request) (resp : pydict),
    In (EvPost req1) (trace get_devices w) ->
    post w req1 = Returns resp ->
    In (EvPost req2) (trace get_product_iot_map w) ->
    post w req2 = Returns resp ->
    code_is_0000 resp ->
    logged (trace get_devices w) = [EvLog ERROR "Failed to get devices" []] /\
    is_ok (outcome get_devices w) = false /\
    logged (trace get_product_iot_map w) = [].
Proof.
  intros w req1 req2 resp Hin1 Hpost1 Hin2 Hpost2 Hcode.
  assert (Hor : dict_get_or resp "code" PNone = PStr "0000")
    by (unfold dict_get_or; rewrite Hcode; reflexivity).
  unfold outcome, trace.
  rewrite (get_devices_replied _ _ _ Hin1 Hpost1).
  rewrite (get_product_iot_map_replied _ _ _ Hin2 Hpost2).
  unfold outcome, trace.
  rewrite devices_of_reply_failure by (rewrite Hor; reflexivity).
  rewrite products_of_reply_run. simpl. rewrite Hor. simpl.
  split; [reflexivity|]. split; [|reflexivity].
  apply raise_failure_never_ok.
Qed.

(** ** The product map: what is returned *)

Lemma map_set_str_keys (m : pymap) k v :
  str_keys m -> str_keys (map_set m (PStr k) v).
Proof.
  induction 1 as [|[k0 v0] m [s Hs] Hm IH]; simpl.
  - repeat constructor. exists k. reflexivity.
  - simpl in Hs. subst k0. simpl.
    destruct (String.eqb s k); constructor; try (exists s; reflexivity);
      assumption.
Qed.

Lemma map_get_set_str (m : pymap) k v k' :
  str_keys m ->
  map_get (map_set m (PStr k) v) (PStr k') =
  if String.eqb k k' then Some v else map_get m (PStr k').
Proof.
  induction 1 as [|[k0 v0] m [s Hs] _ IH]; simpl.
  - destruct (String.eqb k k'); reflexivity.
  - simpl in Hs. subst k0. simpl.
    destruct (String.eqb s k) eqn:Esk; simpl.
    + apply String.eqb_eq in Esk. subst s.
      destruct (String.eqb k k'); reflexivity.
    + rewrite IH. destruct (String.eqb s k') eqn:Esk'; [|reflexivity].
      destruct (String.eqb k k') eqn:Ekk'; [|reflexivity].
      apply String.eqb_eq in Esk', Ekk'. subst.
      rewrite String.eqb_refl in Esk. discriminate Esk.
Qed.

Lemma assign_all_str_keys pairs m :
  str_keys m -> str_keys (fold_left assign pairs m).
Proof.
  revert m. induction pairs as [|cp pairs IH]; intros m Hm; simpl.
  - exact Hm.
  - apply IH, map_set_str_keys, Hm.
Qed.

Lemma assign_all_other pairs m c :
  str_keys m -> ~ In c (map fst pairs) ->
  map_get (fold_left assign pairs m) (PStr c) = map_get m (PStr c).
Proof.
  revert m. induction pairs as [|[k v] pairs IH]; intros m Hm Hnot; simpl.
  - reflexivity.
  - simpl in Hnot. rewrite IH.
    + unfold assign. simpl. rewrite (map_get_set_str _ _ _ _ Hm).
      destruct (String.eqb k c) eqn:E; [|reflexivity].
      apply String.eqb_eq in E. exfalso. apply Hnot. left. exact E.
    + apply map_set_str_keys, Hm.
    + intros Hin. apply Hnot. right. exact Hin.
Qed.

Lemma assign_all_last before c p after m :
  str_keys m -> ~ In c (map fst after) ->
  map_get (fold_left assign (before ++ (c, p) :: after) m) (PStr c) = Some p.
Proof.
  intros Hm Hnot. rewrite fold_left_app. simpl.
  rewrite assign_all_other.
  - unfold assign. simpl.
    rewrite map_get_set_str by (apply assign_all_str_keys, Hm).
    rewrite String.eqb_refl. reflexivity.
  - apply map_set_str_keys, assign_all_str_keys, Hm.
  - exact Hnot.
Qed.

Lemma collect_products_bound items pairs acc w :
  Forall2 (fun entry cp => entry_binds entry (fst cp) (snd cp)) items pairs ->
  collect_products items acc w = ([], Ok (fold_left assign pairs acc)).
Proof.
  intros H. revert acc.
  induction H as [|entry [c p] items pairs [d [-> [Hc Hp]]] _ IH];
    intros acc; simpl; [reflexivity|].
  simpl in Hc, Hp.
  unfold bind, lift, dict_item. rewrite Hp, Hc. simpl.
  rewrite IH. reflexivity.
Qed.

Lemma products_of_reply_success resp w :
  code_is_zero resp \/ code_is_0000 resp ->
  products_of_reply resp w =
  ([EvValidate resp],
   outcome (seq <- lift (dict_item resp "data") ;;
            items <- lift (py_iter seq) ;;
            collect_products items []) w).
Proof.
  intros Hcode. apply product_code_check in Hcode. simpl in Hcode.
  rewrite products_of_reply_run. simpl. rewrite Hcode. reflexivity.
Qed.

(** X13. On a successful product-map reply whose data entries carry a str
    classid and a product, the returned map binds each classid to the
    product of the last entry that names it (a later entry overwrites an
    earlier one), and binds no classid that no entry names. *)
Theorem get_product_iot_map_last_entry_wins :
  forall (w : World) (req : request) (resp : pydict) (items : list pyval)
         (pairs : list (string * pyval)),
    In (EvPost req) (trace get_product_iot_map w) ->
    post w req = Returns resp ->
    code_is_zero resp \/ code_is_0000 resp ->
    dict_get resp "data" = Some (PList items) ->
    Forall2 (fun entry cp => entry_binds entry (fst cp) (snd cp)) items pairs ->
    exists result : pymap,
      outcome get_product_iot_map w = Ok result /\
      (forall before c p after,
         pairs = (before ++ (c, p) :: after)%list ->
         ~ In c (map fst after) ->
         map_get result (PStr c) = Some p) /\
      (forall c, ~ In c (map fst pairs) -> map_get result (PStr c) = None).
Proof.
  intros w req resp items pairs Hin Hpost Hcode Hdata Hbinds.
  exists (fold_left assign pairs []). split; [|split].
  - rewrite (get_product_iot_map_outcome _ _ _ Hin Hpost).
    unfold outcome at 1. rewrite (products_of_reply_success _ _ Hcode). simpl.
    unfold outcome, bind, lift, dict_item. rewrite Hdata. simpl.
    rewrite (collect_products_bound _ _ _ _ Hbinds). reflexivity.
  - intros before c p after -> Hnot.
    apply assign_all_last; [constructor | exact Hnot].
  - intros c Hnot. rewrite assign_all_other; [reflexivity | constructor | exact Hnot].
Qed.

Lemma collect_products_after_good good tail acc w :
  forallb entry_ok good = true ->
  exists acc', collect_products (good ++ tail) acc w = collect_products tail acc' w.
Proof.
  revert acc. induction good as [|entry good IH]; intros acc Hok; simpl.
  - exists acc. reflexivity.
  - simpl in Hok. apply andb_prop in Hok. destruct Hok as [Hentry Hgood].
    destruct entry as [| | | | | |d]; try discriminate Hentry.
    unfold entry_ok in Hentry.
    destruct (dict_get d "classid") as [classid|] eqn:Hc; [|discriminate Hentry].
    destruct (dict_get d "product") as [product|] eqn:Hp; [|discriminate Hentry].
    destruct (IH (map_set acc classid product) Hgood) as [acc' Hacc'].
    exists acc'. unfold bind, lift, py_item, dict_item, map_store.
    rewrite Hp, Hc, Hentry. simpl. rewrite Hacc'.
    destruct (collect_products tail acc' w). reflexivity.
Qed.

(** X14. The first malformed entry of the data sequence makes
    [get_product_iot_map] fail, and the entries folded before it are not
    returned: an item that is no mapping raises TypeError; a mapping without
    product raises KeyError for "product" (whether or not it has a classid);
    one with a product but no classid raises KeyError for "classid"; one
    whose classid is a list or a mapping raises TypeError. *)
Theorem get_product_iot_map_rejects_a_malformed_entry :
  forall (w : World) (req : request) (resp : pydict) (good rest : list pyval)
         (bad : pyval),
    In (EvPost req) (trace get_product_iot_map w) ->
    post w req = Returns resp ->
    code_is_zero resp \/ code_is_0000 resp ->
    dict_get resp "data" = Some (PList (good ++ bad :: rest)) ->
    forallb entry_ok good = true ->
    (is_mapping bad = false ->
     outcome get_product_iot_map w = Raise TypeError) /\
    (forall d, bad = PDict d -> dict_get d "product" = None ->
               outcome get_product_iot_map w = Raise (KeyError "product")) /\
    (forall d p, bad = PDict d -> dict_get d "product" = Some p ->
                 dict_get d "classid" = None ->
                 outcome get_product_iot_map w = Raise (KeyError "classid")) /\
    (forall d p c, bad = PDict d -> dict_get d "product" = Some p ->
                   dict_get d "classid" = Some c -> hashable c = false ->
                   outcome get_product_iot_map w = Raise TypeError).
Proof.
  intros w req resp good rest bad Hin Hpost Hcode Hdata Hgood.
  rewrite (get_product_iot_map_outcome _ _ _ Hin Hpost).
  unfold outcome at 1 2 3 4. rewrite (products_of_reply_success _ _ Hcode).
  simpl. unfold outcome, bind, lift, dict_item. rewrite Hdata. simpl.
  destruct (collect_products_after_good good (bad :: rest) [] w Hgood)
    as [acc' ->].
  simpl. unfold bind, lift, py_item, dict_item, map_store.
  split; [|split; [|split]].
  - intros Hbad. destruct bad; try discriminate Hbad; reflexivity.
  - intros d -> Hp. rewrite Hp. reflexivity.
  - intros d p -> Hp Hc. rewrite Hp, Hc. reflexivity.
  - intros d p c -> Hp Hc Hh. rewrite Hp, Hc, Hh. reflexivity.
Qed.

(** X15. A product-map reply with a success code but without a data field
    makes [get_product_iot_map] raise KeyError for "data"; with a data field
    that cannot be iterated it raises TypeError.  Nothing is logged. *)
Theorem get_product_iot_map_without_a_data_sequence :
  forall (w : World) (req : request) (resp : pydict),
    In (EvPost req) (trace get_product_iot_map w) ->
    post w req = Returns resp ->
    code_is_zero resp \/ code_is_0000 resp ->
    (dict_get resp "data" = None ->
     outcome get_product_iot_map w = Raise (KeyError "data")) /\
    (forall seq, dict_get resp "data" = Some seq -> iterable seq = false ->
                 outcome get_product_iot_map w = Raise TypeError) /\
    logged (trace get_product_iot_map w) = [].
Proof.
  intros w req resp Hin Hpost Hcode.
  unfold outcome, trace. rewrite (get_product_iot_map_replied _ _ _ Hin Hpost).
  unfold outcome, trace. rewrite (products_of_reply_success _ _ Hcode). simpl.
  unfold outcome, bind, lift, dict_item. split; [|split].
  - intros Hnone. rewrite Hnone. reflexivity.
  - intros seq Hsome Hiter. rewrite Hsome. simpl.
    destruct seq; try discriminate Hiter; reflexivity.
  - reflexivity.
Qed.

(** ** Commands: what a run of [send_command] does besides posting *)

(** Splits a goal about [send_command cmd dev w] into its runs: the two
    branches, each with the device fields read or not and the authenticator
    returning or not. *)
Ltac send_command_runs cmd dev w :=
  unfold trace, outcome;
  let Hname := fresh "Hname" in
  destruct (String.eqb (name cmd) GetCleanLogs_name) eqn:Hname;
  [ rewrite (send_command_log_run cmd dev w Hname)
  | rewrite (send_command_generic_run cmd dev w Hname) ];
  (destruct (did dev);
   [ destruct (resource dev);
     [ try match goal with
           | |- context [get_class dev] => destruct (get_class dev)
           end;
       simpl; try destruct (authenticate w) eqn:?
     | ]
   | ]);
  simpl.

(** Finds the request in a membership hypothesis about a concrete trace. *)
Ltac the_posted_request :=
  repeat match goal with
         | H : _ \/ _ |- _ => destruct H as [H|H]
         | H : False |- _ => destruct H
         | H : In _ [] |- _ => destruct H
         | H : In _ (_ :: _) |- _ => simpl in H
         end;
  try discriminate;
  match goal with
  | H : EvPost _ = EvPost _ |- _ => injection H as <-
  end.

Lemma only_logs_acquisitions t : only_logs t -> acquisitions t = 0%nat.
Proof.
  induction 1 as [|ev t Hev _ IH]; [reflexivity|].
  destruct ev; simpl; solve [contradiction | exact IH].
Qed.

(** X16. No operation repeats a call: [get_devices] and
    [get_product_iot_map] await the authenticator exactly once and the
    transport at most once, and [send_command] awaits each at most once,
    whatever the collaborators answer. *)
Theorem collaborators_are_awaited_at_most_once :
  forall (w : World) (cmd : Command) (dev : DeviceInfo),
    (acquisitions (trace get_devices w) = 1 /\
     length (posted (trace get_devices w)) <= 1)%nat /\
    (acquisitions (trace get_product_iot_map w) = 1 /\
     length (posted (trace get_product_iot_map w)) <= 1)%nat /\
    (acquisitions (trace (send_command cmd dev) w) <= 1 /\
     length (posted (trace (send_command cmd dev) w)) <= 1)%nat.
Proof.
  intros w cmd dev. split; [|split].
  - unfold trace at 1 2. rewrite get_devices_run.
    destruct (authenticate w) as [c|]; simpl; [|auto].
    destruct (post w _) as [resp|]; simpl; [|auto].
    rewrite devices_of_reply_posted.
    destruct (devices_of_reply_trace resp w) as [logs [Ht Hlogs]].
    rewrite Ht. simpl. rewrite (only_logs_acquisitions _ Hlogs). auto.
  - unfold trace at 1 2. rewrite get_product_iot_map_run.
    destruct (authenticate w) as [c|]; simpl; [|auto].
    destruct (post w _) as [resp|]; simpl; [|auto].
    rewrite products_of_reply_posted.
    unfold trace. rewrite products_of_reply_run. simpl.
    destruct (eq_int (dict_get_or resp "code" PNone) 0
              || eq_str (dict_get_or resp "code" PNone) "0000"); simpl; auto.
  - send_command_runs cmd dev w; auto.
Qed.

(** X17. [send_command] reads the clock for the generic envelope only: a
    log-retrieval command never reads it, and any other command reads it
    once, before anything else. *)
Theorem send_command_reads_the_clock_for_the_generic_envelope :
  forall (w : World) (cmd : Command) (dev : DeviceInfo),
    if String.eqb (name cmd) GetCleanLogs_name
    then ~ In EvNow (trace (send_command cmd dev) w)
    else exists rest, trace (send_command cmd dev) w = EvNow :: rest /\
                      ~ In EvNow rest.
Proof.
  intros w cmd dev.
  send_command_runs cmd dev w;
    try (intros H; simpl in H; intuition discriminate);
    eexists; (split; [reflexivity|]); intros H; simpl in H;
    intuition discriminate.
Qed.

(** X18. [send_command] writes no log record, whether it returns a reply or
    fails. *)
Theorem send_command_never_logs :
  forall (w : World) (cmd : Command) (dev : DeviceInfo),
    logged (trace (send_command cmd dev) w) = [].
Proof.
  intros w cmd dev. send_command_runs cmd dev w; reflexivity.
Qed.

(** X19. Every request of [send_command] carries the fixed User-Agent
    header, the credentials the authenticator has just returned, and a
    query whose [u] is the user identifier of these credentials. *)
Theorem send_command_request_headers_and_credentials :
  forall (w : World) (cmd : Command) (dev : DeviceInfo) (req : request),
    In (EvPost req) (trace (send_command cmd dev) w) ->
    headers req =
    Some [("User-Agent",
           "Dalvik/2.1.0 (Linux; U; Android 5.1.1; A5010 Build/LMY48Z)")] /\
    authenticate w = Returns (credentials req) /\
    exists query, query_params req = Some query /\
                  dict_get query "u" = Some (user_id (credentials req)).
Proof.
  intros w cmd dev req.
  send_command_runs cmd dev w; intros H; the_posted_request; simpl;
    (split; [reflexivity|]); (split; [first [reflexivity | assumption]|]);
    eexists; split; reflexivity.
Qed.

(** X20. A request of [send_command] carries nothing besides the documented
    keys: the query is exactly td, u, cv, t, av on the log branch and mid,
    did, td, u, cv, t, av on the generic branch, whose body is exactly
    cmdName, payload, payloadType, td, toId, toRes, toType. *)
Theorem send_command_request_keys :
  forall (w : World) (cmd : Command) (dev : DeviceInfo) (req : request),
    In (EvPost req) (trace (send_command cmd dev) w) ->
    if String.eqb (name cmd) GetCleanLogs_name
    then
      option_map (map fst) (query_params req) =
      Some ["td"; "u"; "cv"; "t"; "av"]
    else
      option_map (map fst) (query_params req) =
      Some ["mid"; "did"; "td"; "u"; "cv"; "t"; "av"] /\
      map fst (json req) =
      ["cmdName"; "payload"; "payloadType"; "td"; "toId"; "toRes"; "toType"].
Proof.
  intros w cmd dev req.
  send_command_runs cmd dev w; intros H; the_posted_request; simpl;
    try split; reflexivity.
Qed.

(** ** Where an ApiError comes from *)

Lemma collect_devices_no_api_error items acc w :
  is_api_error (outcome (collect_devices items acc) w) = false.
Proof.
  revert acc. induction items as [|device rest IH]; intros acc; simpl.
  - reflexivity.
  - destruct device as [| | | | | |d]; try reflexivity.
    destruct (eq_str (dict_get_or d "company" PNone) "eco-ng").
    + apply IH.
    + unfold outcome. erewrite run_bind_ok by reflexivity. simpl. apply IH.
Qed.

Lemma collect_products_no_api_error items acc w :
  is_api_error (outcome (collect_products items acc) w) = false.
Proof.
  revert acc. induction items as [|entry rest IH]; intros acc; simpl.
  - reflexivity.
  - unfold outcome, bind, lift, py_item, dict_item, map_store.
    destruct entry as [| | | | | |d]; try reflexivity.
    destruct (dict_get d "product") as [product|]; [|reflexivity].
    destruct (dict_get d "classid") as [classid|]; [|reflexivity].
    destruct (hashable classid); [|reflexivity].
    specialize (IH (map_set acc classid product)). unfold outcome in IH.
    destruct (collect_products rest _ w). exact IH.
Qed.

Lemma raise_failure_api_error {A : Type} (resp : pydict) (what msg : string) w :
  outcome (@raise_failure _ A resp what) w = Raise (ApiError msg) ->
  exists error errno,
    dict_get resp "error" = Some error /\
    dict_get resp "errno" = Some errno /\
    msg = "failure " ++ py_str error ++ " (" ++ py_str errno ++ ") on " ++ what.
Proof.
  unfold outcome. rewrite raise_failure_run. simpl.
  destruct (dict_get resp "error") as [error|]; [|discriminate].
  destruct (dict_get resp "errno") as [errno|]; [|discriminate].
  intros H. injection H as <-. exists error, errno. auto.
Qed.

(** X21. [get_devices] itself raises ApiError for one reason only: the
    transport returned a reply whose code does not equal 0 and which carries
    error and errno, and the message is built from these two.  A malformed
    successful reply never ends in ApiError. *)
Theorem get_devices_api_error_origin :
  forall (w : World) (msg : string),
    outcome get_devices w = Raise (ApiError msg) ->
    exists req resp error errno,
      In (EvPost req) (trace get_devices w) /\
      post w req = Returns resp /\
      ~ code_is_zero resp /\
      dict_get resp "error" = Some error /\
      dict_get resp "errno" = Some errno /\
      msg = "failure " ++ py_str error ++ " (" ++ py_str errno
            ++ ") on getting devices".
Proof.
  intros w msg. unfold outcome at 1, trace. rewrite get_devices_run.
  destruct (authenticate w) as [c|]; simpl; [|discriminate].
  match goal with |- context [post w ?r] => set (req0 := r) end.
  destruct (post w req0) as [resp|] eqn:Hpost; simpl; [|discriminate].
  unfold outcome at 1. rewrite devices_of_reply_run.
  destruct (eq_int (dict_get_or resp "code" PNone) 0) eqn:E; simpl.
  - intros H. exfalso. revert H. unfold outcome, bind, lift, dict_item.
    destruct (dict_get resp "devices") as [seq|]; simpl; [|discriminate].
    destruct (py_iter seq) as [items|e] eqn:Hiter; simpl.
    + pose proof (collect_devices_no_api_error items [] w) as Hno.
      unfold outcome in Hno. destruct (collect_devices items [] w) as [t r].
      simpl in *. intros ->. discriminate Hno.
    + destruct seq; simpl in Hiter; congruence.
  - intros H. apply raise_failure_api_error in H.
    destruct H as [error [errno [Herror [Herrno Hmsg]]]].
    exists req0, resp, error, errno. repeat split; auto.
    intros Hyes. apply code_check_zero in Hyes. congruence.
Qed.

(** X22. [get_product_iot_map] itself raises ApiError for one reason only:
    the transport returned a reply whose code equals neither 0 nor "0000"
    and which carries error and errno, and the message is built from these
    two. *)
Theorem get_product_iot_map_api_error_origin :
  forall (w : World) (msg : string),
    outcome get_product_iot_map w = Raise (ApiError msg) ->
    exists req resp error errno,
      In (EvPost req) (trace get_product_iot_map w) /\
      post w req = Returns resp /\
      ~ (code_is_zero resp \/ code_is_0000 resp) /\
      dict_get resp "error" = Some error /\
      dict_get resp "errno" = Some errno /\
      msg = "failure " ++ py_str error ++ " (" ++ py_str errno
            ++ ") on getting product iot map".
Proof.
  intros w msg. unfold outcome at 1, trace. rewrite get_product_iot_map_run.
  destruct (authenticate w) as [c|]; simpl; [|discriminate].
  match goal with |- context [post w ?r] => set (req0 := r) end.
  destruct (post w req0) as [resp|] eqn:Hpost; simpl; [|discriminate].
  unfold outcome at 1. rewrite products_of_reply_run.
  pose proof (product_code_check resp) as Hcheck. simpl in *.
  destruct (eq_int (dict_get_or resp "code" PNone) 0
            || eq_str (dict_get_or resp "code" PNone) "0000"); simpl.
  - intros H. exfalso. revert H. unfold outcome, bind, lift, dict_item.
    destruct (dict_get resp "data") as [seq|]; simpl; [|discriminate].
    destruct (py_iter seq) as [items|e] eqn:Hiter; simpl.
    + pose proof (collect_products_no_api_error items [] w) as Hno.
      unfold outcome in Hno. destruct (collect_products items [] w) as [t r].
      simpl in *. intros ->. discriminate Hno.
    + destruct seq; simpl in Hiter; congruence.
  - intros H. apply raise_failure_api_error in H.
    destruct H as [error [errno [Herror [Herrno Hmsg]]]].
    exists req0, resp, error, errno. repeat split; auto.
    intros Hyes. apply Hcheck in Hyes. discriminate Hyes.
Qed.

End Properties.

(** * The properties on concrete inputs *)

#[local] Existing Instance Sample.runtime.
#[local] Existing Instance Sample.constants.

(** The device list of the end-to-end scenario: d1 is kept, d2 is skipped. *)
Lemma get_devices_keeps_eco_ng_entries_witness :
  In (EvPost Sample.devices_request)
     (trace get_devices (Sample.world (Returns Sample.reply_devices))) /\
  post (Sample.world (Returns Sample.reply_devices)) Sample.devices_request
  = Returns Sample.reply_devices /\
  code_is_zero Sample.reply_devices /\
  dict_get Sample.reply_devices "devices"
  = Some (PList (map PDict [Sample.device1; Sample.device2])) /\
  exists devices : list DeviceInfo,
    outcome get_devices (Sample.world (Returns Sample.reply_devices))
    = Ok devices /\
    map raw devices = [Sample.device1] /\
    Forall2 (fun dev entry =>
               did dev = dict_item entry "did" /\
               resource dev = dict_item entry "resource" /\
               get_class dev = dict_item entry "class")
            devices [Sample.device1].
Proof.
  assert (H1 : In (EvPost Sample.devices_request)
                  (trace get_devices (Sample.world (Returns Sample.reply_devices))))
    by (vm_compute; auto).
  assert (H3 : code_is_zero Sample.reply_devices)
    by (exists (PInt 0); split; reflexivity).
  split; [exact H1|]. split; [reflexivity|]. split; [exact H3|].
  split; [reflexivity|].
  exact (get_devices_keeps_eco_ng_entries
           (Sample.world (Returns Sample.reply_devices))
           Sample.devices_request Sample.reply_devices
           [Sample.device1; Sample.device2] H1 eq_refl H3 eq_refl).
Defined.

(** The failure of the end-to-end scenario. *)
Lemma get_devices_failure_message_witness :
  In (EvPost Sample.devices_request)
     (trace get_devices (Sample.world (Returns Sample.reply_failure))) /\
  post (Sample.world (Returns Sample.reply_failure)) Sample.devices_request
  = Returns Sample.reply_failure /\
  ~ code_is_zero Sample.reply_failure /\
  dict_get Sample.reply_failure "error" = Some (PStr "bad") /\
  dict_get Sample.reply_failure "errno" = Some (PInt 500) /\
  outcome get_devices (Sample.world (Returns Sample.reply_failure))
  = Raise (ApiError "failure bad (500) on getting devices").
Proof.
  assert (H1 : In (EvPost Sample.devices_request)
                  (trace get_devices (Sample.world (Returns Sample.reply_failure))))
    by (vm_compute; auto).
  assert (H3 : ~ code_is_zero Sample.reply_failure).
  { intros [code [Hget Heq]]. vm_compute in Hget.
    injection Hget as <-. discriminate Heq. }
  split; [exact H1|]. split; [reflexivity|]. split; [exact H3|].
  split; [reflexivity|]. split; [reflexivity|].
  exact (get_devices_failure_message
           (Sample.world (Returns Sample.reply_failure))
           Sample.devices_request Sample.reply_failure
           (PStr "bad") (PInt 500) H1 eq_refl H3 eq_refl eq_refl).
Defined.

(** A product map whose reply has the code "0000" is returned, and a reply
    with the code 1 is turned into an ApiError that names "bad" and "500". *)
Lemma get_product_iot_map_success_codes_witness :
  (In (EvPost Sample.products_request)
      (trace get_product_iot_map (Sample.world (Returns Sample.reply_products))) /\
   post (Sample.world (Returns Sample.reply_products)) Sample.products_request
   = Returns Sample.reply_products /\
   code_is_0000 Sample.reply_products /\
   is_ok (outcome get_product_iot_map
            (Sample.world (Returns Sample.reply_products))) = true) /\
  (In (EvPost Sample.products_request)
      (trace get_product_iot_map (Sample.world (Returns Sample.reply_failure))) /\
   post (Sample.world (Returns Sample.reply_failure)) Sample.products_request
   = Returns Sample.reply_failure /\
   ~ (code_is_zero Sample.reply_failure \/ code_is_0000 Sample.reply_failure) /\
   exists msg,
     outcome get_product_iot_map (Sample.world (Returns Sample.reply_failure))
     = Raise (ApiError msg) /\
     contains "bad" msg /\ contains "500" msg).
Proof.
  split.
  - assert (H1 : In (EvPost Sample.products_request)
                    (trace get_product_iot_map
                           (Sample.world (Returns Sample.reply_products))))
      by (vm_compute; auto).
    split; [exact H1|]. split; [reflexivity|]. split; [reflexivity|].
    exact (proj1 (proj2 (proj2 (get_product_iot_map_success_codes
                                  (Sample.world (Returns Sample.reply_products))
                                  Sample.products_request Sample.reply_products
                                  H1 eq_refl)))
                 (or_intror eq_refl) _ eq_refl eq_refl).
  - assert (H1 : In (EvPost Sample.products_request)
                    (trace get_product_iot_map
                           (Sample.world (Returns Sample.reply_failure))))
      by (vm_compute; auto).
    assert (H3 : ~ (code_is_zero Sample.reply_failure
                    \/ code_is_0000 Sample.reply_failure)).
    { intros [[code [Hget Heq]]|H].
      - vm_compute in Hget. injection Hget as <-. discriminate Heq.
      - discriminate H. }
    split; [exact H1|]. split; [reflexivity|]. split; [exact H3|].
    exact (proj2 (proj2 (proj2 (get_product_iot_map_success_codes
                                  (Sample.world (Returns Sample.reply_failure))
                                  Sample.products_request Sample.reply_failure
                                  H1 eq_refl)))
                 H3 (PStr "bad") (PInt 500) eq_refl eq_refl).
Defined.

(** A reply {"error":"bad","errno":500} without a code fails in both
    operations with the message built from its error and errno. *)
Lemma missing_code_takes_failure_path_witness :
  In (EvPost Sample.devices_request)
     (trace get_devices (Sample.world (Returns Sample.reply_no_code))) /\
  post (Sample.world (Returns Sample.reply_no_code)) Sample.devices_request
  = Returns Sample.reply_no_code /\
  In (EvPost Sample.products_request)
     (trace get_product_iot_map (Sample.world (Returns Sample.reply_no_code))) /\
  post (Sample.world (Returns Sample.reply_no_code)) Sample.products_request
  = Returns Sample.reply_no_code /\
  dict_get Sample.reply_no_code "code" = None /\
  outcome get_devices (Sample.world (Returns Sample.reply_no_code))
  = Raise (ApiError "failure bad (500) on getting devices") /\
  outcome get_product_iot_map (Sample.world (Returns Sample.reply_no_code))
  = Raise (ApiError "failure bad (500) on getting product iot map").
Proof.
  assert (H1 : In (EvPost Sample.devices_request)
                  (trace get_devices (Sample.world (Returns Sample.reply_no_code))))
    by (vm_compute; auto).
  assert (H2 : In (EvPost Sample.products_request)
                  (trace get_product_iot_map
                         (Sample.world (Returns Sample.reply_no_code))))
    by (vm_compute; auto).
  pose proof (missing_code_takes_failure_path
                (Sample.world (Returns Sample.reply_no_code))
                Sample.devices_request Sample.products_request
                Sample.reply_no_code H1 eq_refl H2 eq_refl eq_refl) as H.
  destruct H as [[_ [Hd _]] [_ [Hp _]]].
  split; [exact H1|]. split; [reflexivity|]. split; [exact H2|].
  split; [reflexivity|]. split; [reflexivity|].
  split; [exact Hd | exact Hp].
Defined.

(** The command "clean" with one argument goes to the device manager in the
    generic envelope. *)
Lemma send_command_envelope_shapes_witness :
  did Sample.info1 = Ok (PStr "d1") /\
  resource Sample.info1 = Ok (PStr "r1") /\
  get_class Sample.info1 = Ok (PStr "c1") /\
  authenticate (Sample.world (Returns Sample.reply_failure))
  = Returns Sample.creds /\
  exists req,
    posted (trace (send_command Sample.clean Sample.info1)
                  (Sample.world (Returns Sample.reply_failure))) = [req] /\
    path req = "iot/devmanager.do" /\
    dict_get (json req) "cmdName" = Some (PStr "clean") /\
    dict_get (json req) "td" = Some (PStr "q").
Proof.
  repeat (split; [reflexivity|]).
  pose proof (send_command_envelope_shapes
                (Sample.world (Returns Sample.reply_failure))
                Sample.clean Sample.info1 (PStr "d1") (PStr "r1") (PStr "c1")
                Sample.creds eq_refl eq_refl eq_refl eq_refl) as H.
  destruct H as [req [Hposted Hshape]]. cbn in Hshape.
  destruct Hshape as [Hpath [Hcmd [_ [Htd _]]]].
  exists req. auto.
Defined.

(** The log-retrieval command goes to the log service in the flat form. *)
Lemma send_command_log_shape_example :
  exists req,
    posted (trace (send_command Sample.get_clean_logs Sample.info1)
                  (Sample.world (Returns Sample.reply_failure))) = [req] /\
    path req = "lg/log.do" /\
    json req = [("td", PStr "GetCleanLogs"); ("did", PStr "d1");
                ("resource", PStr "r1")].
Proof. eexists. split; [reflexivity|]. split; reflexivity. Qed.

(** "clean" has an argument, so its payload has the body {data: args}. *)
Lemma send_command_payload_body_witness :
  String.eqb (name Sample.clean) GetCleanLogs_name = false /\
  did Sample.info1 = Ok (PStr "d1") /\
  resource Sample.info1 = Ok (PStr "r1") /\
  get_class Sample.info1 = Ok (PStr "c1") /\
  authenticate (Sample.world (Returns Sample.reply_failure))
  = Returns Sample.creds /\
  exists req payload,
    posted (trace (send_command Sample.clean Sample.info1)
                  (Sample.world (Returns Sample.reply_failure))) = [req] /\
    dict_get (json req) "payload" = Some (PDict payload) /\
    dict_get payload "body"
    = Some (PDict [("data", PList [PDict [("act", PStr "start")]])]).
Proof.
  repeat (split; [reflexivity|]).
  pose proof (send_command_payload_body
                (Sample.world (Returns Sample.reply_failure))
                Sample.clean Sample.info1 (PStr "d1") (PStr "r1") (PStr "c1")
                Sample.creds eq_refl eq_refl eq_refl eq_refl eq_refl) as H.
  destruct H as [req [payload [Hposted [Hpayload [_ [Hsome _]]]]]].
  exists req, payload. repeat split; auto.
  apply Hsome. discriminate.
Defined.

(** "getBattery" has no argument, so its payload has the header only. *)
Lemma send_command_no_body_example :
  exists req,
    posted (trace (send_command Sample.get_battery Sample.info1)
                  (Sample.world (Returns Sample.reply_failure))) = [req] /\
    dict_get (json req) "payload"
    = Some (PDict [("header",
                    PDict [("pri", PStr "1"); ("ts", PFloat 1700000000);
                           ("tzm", PInt 480); ("ver", PStr "0.0.50")])]).
Proof. eexists. split; reflexivity. Qed.

(** The query of "clean" for device d1 and user user-1. *)
Lemma send_command_query_params_witness :
  did Sample.info1 = Ok (PStr "d1") /\
  resource Sample.info1 = Ok (PStr "r1") /\
  get_class Sample.info1 = Ok (PStr "c1") /\
  authenticate (Sample.world (Returns Sample.reply_failure))
  = Returns Sample.creds /\
  exists req query,
    posted (trace (send_command Sample.clean Sample.info1)
                  (Sample.world (Returns Sample.reply_failure))) = [req] /\
    query_params req = Some query /\
    dict_get query "u" = Some (PStr "user-1") /\
    dict_get query "td" = Some (PStr "q") /\
    dict_get query "mid" = Some (PStr "c1") /\
    dict_get query "did" = Some (PStr "d1").
Proof.
  repeat (split; [reflexivity|]).
  pose proof (send_command_query_params
                (Sample.world (Returns Sample.reply_failure))
                Sample.clean Sample.info1 (PStr "d1") (PStr "r1") (PStr "c1")
                Sample.creds eq_refl eq_refl eq_refl eq_refl) as H.
  destruct H as [req [query [Hposted [Hquery [Hu [_ [_ [_ [_ Hbranch]]]]]]]]].
  cbn in Hbranch. destruct Hbranch as [Htd [Hmid Hdid]].
  exists req, query. repeat split; auto.
Defined.

(** A reply with the code 1 comes back from [send_command] as it is. *)
Lemma send_command_returns_raw_reply_witness :
  post (Sample.world (Returns Sample.reply_failure))
       (mkRequest "lg/log.do"
          [("td", PStr "GetCleanLogs"); ("did", PStr "d1");
           ("resource", PStr "r1")]
          (Some [("td", PStr "GetCleanLogs"); ("u", PStr "user-1");
                 ("cv", PStr "1.67.3"); ("t", PStr "a"); ("av", PStr "1.3.1")])
          (Some _REQUEST_HEADERS) Sample.creds)
  = Returns Sample.reply_failure /\
  outcome (send_command Sample.get_clean_logs Sample.info1)
          (Sample.world (Returns Sample.reply_failure))
  = Ok Sample.reply_failure.
Proof.
  split; [reflexivity|].
  refine (proj2 (proj2 (proj2 (send_command_returns_raw_reply
                                 (Sample.world (Returns Sample.reply_failure))
                                 Sample.get_clean_logs Sample.info1)))
                _ Sample.reply_failure _ eq_refl).
  vm_compute. right. right. left. reflexivity.
Defined.

(** The stages of the three operations when the collaborators return. *)
Lemma stage_order_of_the_operations_witness :
  authenticate (Sample.world (Returns Sample.reply_devices))
  = Returns Sample.creds /\
  (forall req, post (Sample.world (Returns Sample.reply_devices)) req
               = Returns Sample.reply_devices) /\
  stages (trace get_devices (Sample.world (Returns Sample.reply_devices)))
  = [Acquire; Build; Transport; Validate] /\
  stages (trace get_product_iot_map (Sample.world (Returns Sample.reply_devices)))
  = [Build; Acquire; Transport; Validate] /\
  stages (trace (send_command Sample.clean Sample.info1)
                (Sample.world (Returns Sample.reply_devices)))
  = [Build; Acquire; Transport].
Proof.
  split; [reflexivity|]. split; [intros req; reflexivity|].
  pose proof (proj2 (stage_order_of_the_operations
                       (Sample.world (Returns Sample.reply_devices))
                       Sample.clean Sample.info1)
                    Sample.creds Sample.reply_devices eq_refl
                    (fun _ => eq_refl)) as H.
  destruct H as [Hd [Hp Hs]].
  split; [exact Hd|]. split; [exact Hp|].
  exact (Hs eq_refl eq_refl eq_refl).
Defined.

(** C8 as stated fails: [send_command] has built its envelope when it
    acquires the credentials. *)
Lemma send_command_builds_before_it_acquires :
  stages (trace (send_command Sample.get_battery Sample.info1)
                (Sample.world (Returns Sample.reply_failure)))
  = [Build; Acquire; Transport] /\
  ~ follows_skeleton (send_command Sample.get_battery Sample.info1)
                     (Sample.world (Returns Sample.reply_failure)).
Proof.
  split; [reflexivity|].
  intros [rest H]. vm_compute in H. discriminate H.
Qed.

(** [get_product_iot_map] too evaluates its body before it awaits the
    authenticator. *)
Lemma get_product_iot_map_builds_before_it_acquires :
  ~ follows_skeleton get_product_iot_map
                     (Sample.world (Returns Sample.reply_products)).
Proof.
  intros [rest H]. vm_compute in H. discriminate H.
Qed.

(** * The further properties on concrete inputs *)

Lemma get_devices_posts_one_request_witness :
  authenticate (Sample.world (Returns Sample.reply_failure))
  = Returns Sample.creds /\
  posted (trace get_devices (Sample.world (Returns Sample.reply_failure)))
  = [Sample.devices_request].
Proof.
  split; [reflexivity|].
  exact (get_devices_posts_one_request
           (Sample.world (Returns Sample.reply_failure)) Sample.creds eq_refl).
Defined.

Lemma get_product_iot_map_posts_one_request_witness :
  authenticate (Sample.world (Returns Sample.reply_products))
  = Returns Sample.creds /\
  posted (trace get_product_iot_map (Sample.world (Returns Sample.reply_products)))
  = [Sample.products_request].
Proof.
  split; [reflexivity|].
  exact (get_product_iot_map_posts_one_request
           (Sample.world (Returns Sample.reply_products)) Sample.creds eq_refl).
Defined.

Lemma authenticator_failure_stops_the_operation_witness :
  authenticate Sample.world_without_login = Throws "login failed" /\
  outcome get_devices Sample.world_without_login
  = Raise (Foreign "login failed") /\
  outcome get_product_iot_map Sample.world_without_login
  = Raise (Foreign "login failed") /\
  outcome (send_command Sample.clean Sample.info1) Sample.world_without_login
  = Raise (Foreign "login failed").
Proof.
  split; [reflexivity|].
  pose proof (authenticator_failure_stops_the_operation
                Sample.world_without_login Sample.clean Sample.info1
                "login failed" eq_refl) as H.
  destruct H as [[_ Hd] [[_ Hp] [_ [_ Hs]]]].
  split; [exact Hd|]. split; [exact Hp|].
  exact (Hs eq_refl eq_refl eq_refl).
Defined.

Lemma transport_failure_is_passed_on_witness :
  post (Sample.world (Throws "timeout")) Sample.devices_request
  = Throws "timeout" /\
  In (EvPost Sample.devices_request)
     (trace get_devices (Sample.world (Throws "timeout"))) /\
  get_devices (Sample.world (Throws "timeout"))
  = ([EvAuthenticate; EvBuilt (json Sample.devices_request);
      EvPost Sample.devices_request], Raise (Foreign "timeout")).
Proof.
  assert (H1 : In (EvPost Sample.devices_request)
                  (trace get_devices (Sample.world (Throws "timeout"))))
    by (vm_compute; auto).
  split; [reflexivity|]. split; [exact H1|].
  exact (proj1 (transport_failure_is_passed_on
                  (Sample.world (Throws "timeout")) Sample.devices_request
                  "timeout" eq_refl) H1).
Defined.

Lemma get_devices_logs_each_skipped_entry_witness :
  In (EvPost Sample.devices_request)
     (trace get_devices (Sample.world (Returns Sample.reply_devices))) /\
  post (Sample.world (Returns Sample.reply_devices)) Sample.devices_request
  = Returns Sample.reply_devices /\
  code_is_zero Sample.reply_devices /\
  dict_get Sample.reply_devices "devices"
  = Some (PList (map PDict [Sample.device1; Sample.device2])) /\
  trace get_devices (Sample.world (Returns Sample.reply_devices))
  = [EvAuthenticate; EvBuilt (json Sample.devices_request);
     EvPost Sample.devices_request; EvValidate Sample.reply_devices;
     skip_record Sample.device2].
Proof.
  assert (H1 : In (EvPost Sample.devices_request)
                  (trace get_devices (Sample.world (Returns Sample.reply_devices))))
    by (vm_compute; auto).
  assert (H3 : code_is_zero Sample.reply_devices)
    by (exists (PInt 0); split; reflexivity).
  split; [exact H1|]. split; [reflexivity|]. split; [exact H3|].
  split; [reflexivity|].
  exact (get_devices_logs_each_skipped_entry
           (Sample.world (Returns Sample.reply_devices))
           Sample.devices_request Sample.reply_devices
           [Sample.device1; Sample.device2] H1 eq_refl H3 eq_refl).
Defined.

Lemma get_devices_without_a_devices_sequence_witness :
  In (EvPost Sample.devices_request)
     (trace get_devices (Sample.world (Returns Sample.reply_code_only))) /\
  post (Sample.world (Returns Sample.reply_code_only)) Sample.devices_request
  = Returns Sample.reply_code_only /\
  code_is_zero Sample.reply_code_only /\
  dict_get Sample.reply_code_only "devices" = None /\
  outcome get_devices (Sample.world (Returns Sample.reply_code_only))
  = Raise (KeyError "devices").
Proof.
  assert (H1 : In (EvPost Sample.devices_request)
                  (trace get_devices (Sample.world (Returns Sample.reply_code_only))))
    by (vm_compute; auto).
  assert (H3 : code_is_zero Sample.reply_code_only)
    by (exists (PInt 0); split; reflexivity).
  split; [exact H1|]. split; [reflexivity|]. split; [exact H3|].
  split; [reflexivity|].
  exact (proj1 (get_devices_without_a_devices_sequence
                  (Sample.world (Returns Sample.reply_code_only))
                  Sample.devices_request Sample.reply_code_only
                  H1 eq_refl H3) eq_refl).
Defined.

Lemma get_devices_rejects_a_non_mapping_entry_witness :
  In (EvPost Sample.devices_request)
     (trace get_devices (Sample.world (Returns Sample.reply_odd_devices))) /\
  post (Sample.world (Returns Sample.reply_odd_devices)) Sample.devices_request
  = Returns Sample.reply_odd_devices /\
  code_is_zero Sample.reply_odd_devices /\
  dict_get Sample.reply_odd_devices "devices"
  = Some (PList [PDict Sample.device1; PStr "oops"]) /\
  py_iter (PList [PDict Sample.device1; PStr "oops"])
  = Ok [PDict Sample.device1; PStr "oops"] /\
  existsb (fun v => negb (is_mapping v)) [PDict Sample.device1; PStr "oops"]
  = true /\
  outcome get_devices (Sample.world (Returns Sample.reply_odd_devices))
  = Raise (AttributeError "get").
Proof.
  assert (H1 : In (EvPost Sample.devices_request)
                  (trace get_devices
                         (Sample.world (Returns Sample.reply_odd_devices))))
    by (vm_compute; auto).
  assert (H3 : code_is_zero Sample.reply_odd_devices)
    by (exists (PInt 0); split; reflexivity).
  split; [exact H1|]. split; [reflexivity|]. split; [exact H3|].
  split; [reflexivity|]. split; [reflexivity|]. split; [reflexivity|].
  exact (get_devices_rejects_a_non_mapping_entry
           (Sample.world (Returns Sample.reply_odd_devices))
           Sample.devices_request Sample.reply_odd_devices
           (PList [PDict Sample.device1; PStr "oops"])
           [PDict Sample.device1; PStr "oops"]
           H1 eq_refl H3 eq_refl eq_refl eq_refl).
Defined.

Lemma get_devices_failure_path_iff_witness :
  In (EvPost Sample.devices_request)
     (trace get_devices (Sample.world (Returns Sample.reply_no_code))) /\
  post (Sample.world (Returns Sample.reply_no_code)) Sample.devices_request
  = Returns Sample.reply_no_code /\
  ~ code_is_zero Sample.reply_no_code /\
  took_failure_path "Failed to get devices"
    (trace get_devices (Sample.world (Returns Sample.reply_no_code))).
Proof.
  assert (H1 : In (EvPost Sample.devices_request)
                  (trace get_devices (Sample.world (Returns Sample.reply_no_code))))
    by (vm_compute; auto).
  assert (H3 : ~ code_is_zero Sample.reply_no_code).
  { intros [code [Hget _]]. discriminate Hget. }
  split; [exact H1|]. split; [reflexivity|]. split; [exact H3|].
  exact (proj2 (proj1 (get_devices_failure_path_iff
                         (Sample.world (Returns Sample.reply_no_code))
                         Sample.devices_request Sample.reply_no_code
                         H1 eq_refl)) H3).
Defined.

Lemma get_devices_failure_without_fields_witness :
  In (EvPost Sample.devices_request)
     (trace get_devices (Sample.world (Returns Sample.reply_no_errno))) /\
  post (Sample.world (Returns Sample.reply_no_errno)) Sample.devices_request
  = Returns Sample.reply_no_errno /\
  ~ code_is_zero Sample.reply_no_errno /\
  dict_get Sample.reply_no_errno "error" = Some (PStr "bad") /\
  dict_get Sample.reply_no_errno "errno" = None /\
  outcome get_devices (Sample.world (Returns Sample.reply_no_errno))
  = Raise (KeyError "errno").
Proof.
  assert (H1 : In (EvPost Sample.devices_request)
                  (trace get_devices (Sample.world (Returns Sample.reply_no_errno))))
    by (vm_compute; auto).
  assert (H3 : ~ code_is_zero Sample.reply_no_errno).
  { intros [code [Hget Heq]]. vm_compute in Hget.
    injection Hget as <-. discriminate Heq. }
  split; [exact H1|]. split; [reflexivity|]. split; [exact H3|].
  split; [reflexivity|]. split; [reflexivity|].
  exact (proj1 (proj2 (get_devices_failure_without_fields
                         (Sample.world (Returns Sample.reply_no_errno))
                         Sample.devices_request Sample.reply_no_errno
                         H1 eq_refl H3)) (PStr "bad") eq_refl eq_refl).
Defined.

Lemma get_product_iot_map_failure_message_witness :
  In (EvPost Sample.products_request)
     (trace get_product_iot_map (Sample.world (Returns Sample.reply_failure))) /\
  post (Sample.world (Returns Sample.reply_failure)) Sample.products_request
  = Returns Sample.reply_failure /\
  ~ (code_is_zero Sample.reply_failure \/ code_is_0000 Sample.reply_failure) /\
  dict_get Sample.reply_failure "error" = Some (PStr "bad") /\
  dict_get Sample.reply_failure "errno" = Some (PInt 500) /\
  outcome get_product_iot_map (Sample.world (Returns Sample.reply_failure))
  = Raise (ApiError "failure bad (500) on getting product iot map").
Proof.
  assert (H1 : In (EvPost Sample.products_request)
                  (trace get_product_iot_map
                         (Sample.world (Returns Sample.reply_failure))))
    by (vm_compute; auto).
  assert (H3 : ~ (code_is_zero Sample.reply_failure
                  \/ code_is_0000 Sample.reply_failure)).
  { intros [[code [Hget Heq]]|H].
    - vm_compute in Hget. injection Hget as <-. discriminate Heq.
    - discriminate H. }
  split; [exact H1|]. split; [reflexivity|]. split; [exact H3|].
  split; [reflexivity|]. split; [reflexivity|].
  exact (get_product_iot_map_failure_message
           (Sample.world (Returns Sample.reply_failure))
           Sample.products_request Sample.reply_failure
           (PStr "bad") (PInt 500) H1 eq_refl H3 eq_refl eq_refl).
Defined.

Lemma get_product_iot_map_failure_without_fields_witness :
  In (EvPost Sample.products_request)
     (trace get_product_iot_map
            (Sample.world (Returns Sample.reply_bare_failure))) /\
  post (Sample.world (Returns Sample.reply_bare_failure)) Sample.products_request
  = Returns Sample.reply_bare_failure /\
  ~ (code_is_zero Sample.reply_bare_failure
     \/ code_is_0000 Sample.reply_bare_failure) /\
  dict_get Sample.reply_bare_failure "error" = None /\
  outcome get_product_iot_map (Sample.world (Returns Sample.reply_bare_failure))
  = Raise (KeyError "error").
Proof.
  assert (H1 : In (EvPost Sample.products_request)
                  (trace get_product_iot_map
                         (Sample.world (Returns Sample.reply_bare_failure))))
    by (vm_compute; auto).
  assert (H3 : ~ (code_is_zero Sample.reply_bare_failure
                  \/ code_is_0000 Sample.reply_bare_failure)).
  { intros [[code [Hget Heq]]|H].
    - vm_compute in Hget. injection Hget as <-. discriminate Heq.
    - discriminate H. }
  split; [exact H1|]. split; [reflexivity|]. split; [exact H3|].
  split; [reflexivity|].
  exact (proj1 (get_product_iot_map_failure_without_fields
                  (Sample.world (Returns Sample.reply_bare_failure))
                  Sample.products_request Sample.reply_bare_failure
                  H1 eq_refl H3) eq_refl).
Defined.

Lemma code_0000_succeeds_for_the_product_map_only_witness :
  In (EvPost Sample.devices_request)
     (trace get_devices (Sample.world (Returns Sample.reply_products))) /\
  post (Sample.world (Returns Sample.reply_products)) Sample.devices_request
  = Returns Sample.reply_products /\
  In (EvPost Sample.products_request)
     (trace get_product_iot_map (Sample.world (Returns Sample.reply_products))) /\
  post (Sample.world (Returns Sample.reply_products)) Sample.products_request
  = Returns Sample.reply_products /\
  code_is_0000 Sample.reply_products /\
  logged (trace get_devices (Sample.world (Returns Sample.reply_products)))
  = [EvLog ERROR "Failed to get devices" []] /\
  is_ok (outcome get_devices (Sample.world (Returns Sample.reply_products)))
  = false /\
  logged (trace get_product_iot_map (Sample.world (Returns Sample.reply_products)))
  = [].
Proof.
  assert (H1 : In (EvPost Sample.devices_request)
                  (trace get_devices (Sample.world (Returns Sample.reply_products))))
    by (vm_compute; auto).
  assert (H2 : In (EvPost Sample.products_request)
                  (trace get_product_iot_map
                         (Sample.world (Returns Sample.reply_products))))
    by (vm_compute; auto).
  split; [exact H1|]. split; [reflexivity|]. split; [exact H2|].
  split; [reflexivity|]. split; [reflexivity|].
  exact (code_0000_succeeds_for_the_product_map_only
           (Sample.world (Returns Sample.reply_products))
           Sample.devices_request Sample.products_request
           Sample.reply_products H1 eq_refl H2 eq_refl eq_refl).
Defined.

(** c1 is named twice; the map holds the product of its last entry. *)
Lemma get_product_iot_map_last_entry_wins_witness :
  In (EvPost Sample.products_request)
     (trace get_product_iot_map
            (Sample.world (Returns Sample.reply_repeated_classid))) /\
  post (Sample.world (Returns Sample.reply_repeated_classid))
       Sample.products_request
  = Returns Sample.reply_repeated_classid /\
  (code_is_zero Sample.reply_repeated_classid
   \/ code_is_0000 Sample.reply_repeated_classid) /\
  dict_get Sample.reply_repeated_classid "data"
  = Some (PList [Sample.entry "c1" "p1"; Sample.entry "c2" "p2";
                 Sample.entry "c1" "p3"]) /\
  Forall2 (fun entry cp => entry_binds entry (fst cp) (snd cp))
          [Sample.entry "c1" "p1"; Sample.entry "c2" "p2";
           Sample.entry "c1" "p3"]
          [("c1", PStr "p1"); ("c2", PStr "p2"); ("c1", PStr "p3")] /\
  exists result : pymap,
    outcome get_product_iot_map
            (Sample.world (Returns Sample.reply_repeated_classid))
    = Ok result /\
    map_get result (PStr "c1") = Some (PStr "p3") /\
    map_get result (PStr "c2") = Some (PStr "p2") /\
    map_get result (PStr "c3") = None.
Proof.
  assert (H1 : In (EvPost Sample.products_request)
                  (trace get_product_iot_map
                         (Sample.world (Returns Sample.reply_repeated_classid))))
    by (vm_compute; auto).
  assert (H3 : code_is_zero Sample.reply_repeated_classid
               \/ code_is_0000 Sample.reply_repeated_classid)
    by (left; exists (PInt 0); split; reflexivity).
  assert (H5 : Forall2 (fun entry cp => entry_binds entry (fst cp) (snd cp))
                 [Sample.entry "c1" "p1"; Sample.entry "c2" "p2";
                  Sample.entry "c1" "p3"]
                 [("c1", PStr "p1"); ("c2", PStr "p2"); ("c1", PStr "p3")]).
  { repeat constructor; eexists; repeat split; reflexivity. }
  split; [exact H1|]. split; [reflexivity|]. split; [exact H3|].
  split; [reflexivity|]. split; [exact H5|].
  destruct (get_product_iot_map_last_entry_wins
              (Sample.world (Returns Sample.reply_repeated_classid))
              Sample.products_request Sample.reply_repeated_classid
              _ _ H1 eq_refl H3 eq_refl H5) as [result [Hok [Hlast Hnone]]].
  exists result. split; [exact Hok|]. split; [|split].
  - apply (Hlast [("c1", PStr "p1"); ("c2", PStr "p2")] "c1" (PStr "p3") []);
      [reflexivity | intros []].
  - apply (Hlast [("c1", PStr "p1")] "c2" (PStr "p2") [("c1", PStr "p3")]);
      [reflexivity|]. simpl. intros [H|[]]. discriminate H.
  - apply Hnone. simpl. intros [H|[H|[H|[]]]]; discriminate H.
Defined.

Lemma get_product_iot_map_rejects_a_malformed_entry_witness :
  In (EvPost Sample.products_request)
     (trace get_product_iot_map
            (Sample.world (Returns Sample.reply_entry_without_product))) /\
  post (Sample.world (Returns Sample.reply_entry_without_product))
       Sample.products_request
  = Returns Sample.reply_entry_without_product /\
  (code_is_zero Sample.reply_entry_without_product
   \/ code_is_0000 Sample.reply_entry_without_product) /\
  dict_get Sample.reply_entry_without_product "data"
  = Some (PList ([Sample.entry "c1" "p1"]
                   ++ PDict [("classid", PStr "c9")]
                   :: [Sample.entry "c2" "p2"])) /\
  forallb entry_ok [Sample.entry "c1" "p1"] = true /\
  outcome get_product_iot_map
          (Sample.world (Returns Sample.reply_entry_without_product))
  = Raise (KeyError "product").
Proof.
  assert (H1 : In (EvPost Sample.products_request)
                  (trace get_product_iot_map
                         (Sample.world
                            (Returns Sample.reply_entry_without_product))))
    by (vm_compute; auto).
  assert (H3 : code_is_zero Sample.reply_entry_without_product
               \/ code_is_0000 Sample.reply_entry_without_product)
    by (left; exists (PInt 0); split; reflexivity).
  split; [exact H1|]. split; [reflexivity|]. split; [exact H3|].
  split; [reflexivity|]. split; [reflexivity|].
  exact (proj1 (proj2 (get_product_iot_map_rejects_a_malformed_entry
                         (Sample.world
                            (Returns Sample.reply_entry_without_product))
                         Sample.products_request
                         Sample.reply_entry_without_product
                         [Sample.entry "c1" "p1"] [Sample.entry "c2" "p2"]
                         (PDict [("classid", PStr "c9")])
                         H1 eq_refl H3 eq_refl eq_refl))
               [("classid", PStr "c9")] eq_refl eq_refl).
Defined.

Lemma get_product_iot_map_without_a_data_sequence_witness :
  In (EvPost Sample.products_request)
     (trace get_product_iot_map (Sample.world (Returns Sample.reply_code_only))) /\
  post (Sample.world (Returns Sample.reply_code_only)) Sample.products_request
  = Returns Sample.reply_code_only /\
  (code_is_zero Sample.reply_code_only \/ code_is_0000 Sample.reply_code_only) /\
  dict_get Sample.reply_code_only "data" = None /\
  outcome get_product_iot_map (Sample.world (Returns Sample.reply_code_only))
  = Raise (KeyError "data").
Proof.
  assert (H1 : In (EvPost Sample.products_request)
                  (trace get_product_iot_map
                         (Sample.world (Returns Sample.reply_code_only))))
    by (vm_compute; auto).
  assert (H3 : code_is_zero Sample.reply_code_only
               \/ code_is_0000 Sample.reply_code_only)
    by (left; exists (PInt 0); split; reflexivity).
  split; [exact H1|]. split; [reflexivity|]. split; [exact H3|].
  split; [reflexivity|].
  exact (proj1 (get_product_iot_map_without_a_data_sequence
                  (Sample.world (Returns Sample.reply_code_only))
                  Sample.products_request Sample.reply_code_only
                  H1 eq_refl H3) eq_refl).
Defined.

Lemma send_command_request_headers_and_credentials_witness :
  In (EvPost Sample.log_request)
     (trace (send_command Sample.get_clean_logs Sample.info1)
            (Sample.world (Returns Sample.reply_failure))) /\
  headers Sample.log_request
  = Some [("User-Agent",
           "Dalvik/2.1.0 (Linux; U; Android 5.1.1; A5010 Build/LMY48Z)")] /\
  authenticate (Sample.world (Returns Sample.reply_failure))
  = Returns (credentials Sample.log_request).
Proof.
  assert (H1 : In (EvPost Sample.log_request)
                  (trace (send_command Sample.get_clean_logs Sample.info1)
                         (Sample.world (Returns Sample.reply_failure))))
    by (vm_compute; auto).
  split; [exact H1|].
  pose proof (send_command_request_headers_and_credentials
                (Sample.world (Returns Sample.reply_failure))
                Sample.get_clean_logs Sample.info1 Sample.log_request H1) as H.
  destruct H as [Hh [Hc _]]. split; [exact Hh | exact Hc].
Defined.

Lemma send_command_request_keys_witness :
  In (EvPost Sample.log_request)
     (trace (send_command Sample.get_clean_logs Sample.info1)
            (Sample.world (Returns Sample.reply_failure))) /\
  option_map (map fst) (query_params Sample.log_request)
  = Some ["td"; "u"; "cv"; "t"; "av"].
Proof.
  assert (H1 : In (EvPost Sample.log_request)
                  (trace (send_command Sample.get_clean_logs Sample.info1)
                         (Sample.world (Returns Sample.reply_failure))))
    by (vm_compute; auto).
  split; [exact H1|].
  exact (send_command_request_keys
           (Sample.world (Returns Sample.reply_failure))
           Sample.get_clean_logs Sample.info1 Sample.log_request H1).
Defined.

Lemma get_devices_api_error_origin_witness :
  outcome get_devices (Sample.world (Returns Sample.reply_failure))
  = Raise (ApiError "failure bad (500) on getting devices") /\
  exists req resp error errno,
    In (EvPost req)
       (trace get_devices (Sample.world (Returns Sample.reply_failure))) /\
    post (Sample.world (Returns Sample.reply_failure)) req = Returns resp /\
    ~ code_is_zero resp /\
    dict_get resp "error" = Some error /\
    dict_get resp "errno" = Some errno /\
    "failure bad (500) on getting devices"
    = "failure " ++ py_str error ++ " (" ++ py_str errno
      ++ ") on getting devices".
Proof.
  split; [reflexivity|].
  exact (get_devices_api_error_origin
           (Sample.world (Returns Sample.reply_failure))
           "failure bad (500) on getting devices" eq_refl).
Defined.

Lemma get_product_iot_map_api_error_origin_witness :
  outcome get_product_iot_map (Sample.world (Returns Sample.reply_failure))
  = Raise (ApiError "failure bad (500) on getting product iot map") /\
  exists req resp error errno,
    In (EvPost req)
       (trace get_product_iot_map
              (Sample.world (Returns Sample.reply_failure))) /\
    post (Sample.world (Returns Sample.reply_failure)) req = Returns resp /\
    ~ (code_is_zero resp \/ code_is_0000 resp) /\
    dict_get resp "error" = Some error /\
    dict_get resp "errno" = Some errno /\
    "failure bad (500) on getting product iot map"
    = "failure " ++ py_str error ++ " (" ++ py_str errno
      ++ ") on getting product iot map".
Proof.
  split; [reflexivity|].
  exact (get_product_iot_map_api_error_origin
           (Sample.world (Returns Sample.reply_failure))
           "failure bad (500) on getting product iot map" eq_refl).
Defined.

(** * The portal URL on concrete inputs *)



(** So does a path that starts with a network location. *)
Lemma network_path_replaces_the_portal_host :
  _get_portal_url Sample.us "//example.org/y" = Ok "https://example.org/y" /\
  ~ resolves_to_portal_host Sample.us "//example.org/y".
Proof.
  split; [reflexivity|].
  intros [url [Hurl Hhost]]. vm_compute in Hurl. injection Hurl as <-.
  vm_compute in Hhost. discriminate Hhost.
Qed.

(** A continent with a slash cuts the host short. *)
Lemma continent_with_a_slash_cuts_the_host :
  spec_portal_host (mkConfiguration "a/b" "us") = "portal-a/b.ecouser.net" /\
  _get_portal_url (mkConfiguration "a/b" "us") "x"
  = Ok "https://portal-a/b.ecouser.net/api/x" /\
  url_netloc "https://portal-a/b.ecouser.net/api/x" = Ok "portal-a".
Proof. repeat split. Qed.

(** The resolver has error conditions: the join rejects a network location
    with an unmatched bracket, in the path or in the continent. *)
Lemma unmatched_bracket_makes_the_resolver_raise :
  _get_portal_url Sample.us "//[" = Raise (Foreign "ValueError") /\
  _get_portal_url (mkConfiguration "[" "us") "x" = Raise (Foreign "ValueError").
Proof. split; reflexivity. Qed.
